(** * diffuzers/inpainting.py: the [Inpainting] wrapper, embedded and verified

    The module is glue around an external diffusion framework.  The embedding
    keeps the glue exactly as written (scheduler swap, seeding, parameter
    marshalling, metadata, the Streamlit form and its guard) and treats the
    framework (diffusers, torch, PIL decoding, json.dumps, requests) as a
    signature of opaque operations, [Framework], that every definition below
    is parametric in.  External calls whose order matters are recorded in a
    chronological trace of events. *)

From Stdlib Require Import String Ascii List ZArith Bool Lia Permutation DecimalString.
Import ListNotations.
Local Open Scope string_scope.
Local Open Scope Z_scope.

(** ** Python values *)

(** The exceptions that can surface in this module.  None of them is ever
    caught: the source has no [try] statement. *)
Inductive exn : Type :=
| KeyError (key : string)
| TypeError (msg : string)
| ValueError (msg : string)
| IndexError (msg : string)
| FrameworkError (msg : string).

Inductive outcome (A : Type) : Type :=
| Ret (a : A)
| Raise (e : exn).
Arguments Ret {A} a.
Arguments Raise {A} e.

(** [list] methods used by [app]. *)
Module PyList.

(** [x in l] *)
Definition contains (x : string) (l : list string) : bool :=
  existsb (String.eqb x) l.

(** [l.index(x)]: position of the first occurrence, [ValueError] if none. *)
Fixpoint index (x : string) (l : list string) : option nat :=
  match l with
  | [] => None
  | y :: r => if String.eqb x y then Some O
              else match index x r with
                   | Some i => Some (S i)
                   | None => None
                   end
  end.

(** [l.pop(i)]: the removed element and the remaining list, [IndexError]
    when [i] is out of range. *)
Fixpoint pop {A : Type} (i : nat) (l : list A) : option (A * list A) :=
  match l, i with
  | [], _ => None
  | x :: r, O => Some (x, r)
  | x :: r, S j => match pop j r with
                   | Some (y, r') => Some (y, x :: r')
                   | None => None
                   end
  end.

(** [l.insert(i, x)]: never fails, an index past the end appends. *)
Fixpoint insert {A : Type} (i : nat) (x : A) (l : list A) : list A :=
  match i, l with
  | O, _ => x :: l
  | S _, [] => [x]
  | S j, y :: r => y :: insert j x r
  end.

End PyList.

(** [dict] with [str] keys: insertion ordered, one entry per key; assigning
    to a key that is present keeps its position and replaces its value. *)
Module PyDict.

Definition dict (V : Type) : Type := list (string * V).

Fixpoint set {V : Type} (d : dict V) (k : string) (v : V) : dict V :=
  match d with
  | [] => [(k, v)]
  | (k', v') :: r => if String.eqb k k' then (k', v) :: r
                     else (k', v') :: set r k v
  end.

(** [d[k]]: [None] stands for [KeyError]. *)
Fixpoint get {V : Type} (d : dict V) (k : string) : option V :=
  match d with
  | [] => None
  | (k', v) :: r => if String.eqb k k' then Some v else get r k
  end.

Definition keys {V : Type} (d : dict V) : list string := map fst d.

(** [{key(x): x for x in l}] *)
Definition comprehension {V : Type} (key : V -> string) (l : list V) : dict V :=
  fold_left (fun d x => set d (key x) x) l [].

End PyDict.

(** ** Images (PIL)

    An image is kept as the expression that built it; [size] gives PIL's
    [Image.size], the pair (width, height). *)

Inductive resample_filter : Type := LANCZOS.

(** A [rows] x [cols] x 4 [uint8] array, as [st_canvas] returns it. *)
Record ndarray : Type := { nd_rows : Z; nd_cols : Z; nd_data : nat }.

Inductive Image : Type :=
| Raster (mode : string) (width height : Z) (pixels : nat)
| Fromarray (a : ndarray) (channel : nat)
| Convert (mode : string) (im : Image)
| Resize (width height : Z) (filter : option resample_filter) (im : Image).

(** [im.size]: [fromarray] of a 2-d slice has as many columns as the array
    and as many rows; [convert] keeps the size; [resize((w, h))] has size
    [(w, h)]. *)
Fixpoint size (im : Image) : Z * Z :=
  match im with
  | Raster _ w h _ => (w, h)
  | Fromarray a _ => (nd_cols a, nd_rows a)
  | Convert _ im' => size im'
  | Resize w h _ _ => (w, h)
  end.

(** Truth value of an image object: PIL images define neither [__bool__] nor
    [__len__]. *)
Definition Image_bool (im : Image) : bool := true.

(** [PngInfo]: the text chunks added so far. *)
Definition PngInfo : Type := list (string * string).
Definition PngInfo_new : PngInfo := [].
Definition add_text (info : PngInfo) (key value : string) : PngInfo :=
  (info ++ [(key, value)])%list.

Inductive dtype : Type := float16 | float32.

(** Modelled from the spec: [utils.no_safety_checker], which is not among the
    sources and which the spec does not describe.  The module only stores it
    on the pipeline, so it is a token next to the checker the pipeline is
    loaded with. *)
Inductive SafetyChecker : Type := default_safety_checker | no_safety_checker.

(** [self.device == name], on an [Optional[str]]. *)
Definition device_is (device : option string) (name : string) : bool :=
  match device with
  | Some d => String.eqb d name
  | None => false
  end.

(** An [int] that a Streamlit widget keeps between [lo] and [hi]
    ([min_value] and [max_value] of a slider or a number input). *)
Record bounded (lo hi : Z) : Type := {
  value : Z;
  in_range : ((lo <=? value) && (value <=? hi))%bool = true
}.
Arguments value {lo hi} b.
Arguments in_range {lo hi} b.

(** [manual_seed] of a torch generator takes the seed as an unsigned 64-bit
    integer and reads a negative one as a signed 64-bit integer: a seed from
    -2**63 up to 2**64 - 1 is accepted, any other makes it raise. *)
Definition seed_in_range (seed : Z) : bool :=
  ((- 2 ^ 63 <=? seed) && (seed <? 2 ^ 64))%bool.

(** ** The external framework: types *)

Class Externals : Type := {
  pyfloat : Type;          (* Python floats; only ever passed along *)
  Blob : Type;             (* file-like objects and HTTP bodies *)
  Weights : Type;          (* the loaded model *)
  SchedulerClass : Type;
  SchedulerConfig : Type;
  Scheduler : Type
}.

Section Data.
Context {X : Externals}.

(** The values stored in the metadata [dict] handed to [json.dumps]. *)
Inductive json : Type :=
| JString (s : string)
| JInt (z : Z)
| JFloat (f : pyfloat).

(** The pipeline object, with the attributes this module reads or writes. *)
Record Pipeline : Type := {
  weights : Weights;
  torch_dtype : dtype;
  scheduler : Scheduler;
  safety_checker : SafetyChecker;
  attention_slicing : bool
}.

(** [torch.manual_seed(seed)] reseeds and returns the global generator;
    [torch.Generator(device=d).manual_seed(seed)] is a fresh one on [d]. *)
Inductive Generator : Type :=
| global_generator (seed : Z)
| device_generator (device : option string) (seed : Z).

(** [g.initial_seed()]: the accepted seed as an unsigned 64-bit integer. *)
Definition initial_seed (g : Generator) : Z :=
  match g with
  | global_generator seed => seed mod 2 ^ 64
  | device_generator _ seed => seed mod 2 ^ 64
  end.

(** Keyword arguments of one [self.pipeline(...)] call; [None] is a keyword
    that was not passed. *)
Record pipeline_call : Type := {
  kw_prompt : string;
  kw_negative_prompt : option string;
  kw_image : Image;
  kw_mask_image : Image;
  kw_num_inference_steps : Z;
  kw_guidance_scale : option pyfloat;
  kw_num_images_per_prompt : option Z;
  kw_generator : option Generator;
  kw_height : option Z;
  kw_width : option Z
}.

(** External effects, in the order they happen.  [FromPretrained] is the
    loading of the model (files read, or fetched from the hub), [PipelineTo]
    the move of the pipeline to a device. *)
Inductive event : Type :=
| FromPretrained (model : option string) (torch_dtype : dtype)
| PipelineTo (device : option string)
| HttpGet (url : string)
| PipelineCall (p : Pipeline) (kw : pipeline_call)
| LogInfo (s : Scheduler)
| ManualSeed (seed : Z)
| SaveImages (images : list Image) (module : string) (metadata : string)
             (output_path : option string)
| EmptyCache
| GcCollect
| DisplayAndDownload (images : list Image) (metadata : PngInfo).

(** The dataclass instance. *)
Record Inpainting : Type := {
  model : option string;
  device : option string;
  output_path : option string;
  pipeline : Pipeline;
  _compatible_schedulers : list SchedulerClass;
  scheduler_config : SchedulerConfig;
  compatible_schedulers : PyDict.dict SchedulerClass
}.

Record World : Type := { self : Inpainting; trace : list event }.

End Data.

(** ** The external framework: operations

    [from_config] is a function: instantiating one class from one
    configuration twice gives two objects that are the same scheduler, and
    schedulers are compared up to object identity. *)

Class Framework {X : Externals} : Type := {
  class_name : SchedulerClass -> string;                         (* [cls.__name__] *)
  from_config : SchedulerClass -> SchedulerConfig -> Scheduler;  (* [cls.from_config(cfg)] *)
  compatibles : Scheduler -> list SchedulerClass;                (* [s.compatibles] *)
  config : Scheduler -> SchedulerConfig;                         (* [s.config] *)
  from_pretrained : option string -> dtype -> outcome (Weights * Scheduler);
  to_device : Weights -> option string -> outcome Weights;       (* [pipeline.to(d)] *)
  denoise : Pipeline -> pipeline_call -> outcome (list Image);   (* [pipeline(...).images] *)
  requests_get : string -> outcome Blob;
  Image_open : Blob -> outcome Image;
  json_dumps : PyDict.dict json -> string
}.

(** ** Effects: a state monad that keeps the state when an exception is raised *)

Definition M (S A : Type) : Type := S -> outcome A * S.

Definition ret {S A : Type} (a : A) : M S A := fun s => (Ret a, s).

Definition raise {S A : Type} (e : exn) : M S A := fun s => (Raise e, s).

Definition bind {S A B : Type} (c : M S A) (k : A -> M S B) : M S B :=
  fun s => match c s with
           | (Ret a, s') => k a s'
           | (Raise e, s') => (Raise e, s')
           end.

Definition lift {S A : Type} (o : outcome A) : M S A := fun s => (o, s).

Declare Scope py_scope.
Delimit Scope py_scope with py.
Notation "x <- c ;; k" := (bind c (fun x => k))
  (at level 61, c at next level, right associativity) : py_scope.
Notation "' pat <- c ;; k" := (bind c (fun x => match x with pat => k end))
  (at level 61, pat pattern, c at next level, right associativity) : py_scope.
Notation "c ;; k" := (bind c (fun _ => k))
  (at level 61, right associativity) : py_scope.
Local Open Scope py_scope.

(** ** The program *)

Section Program.
Context {X : Externals} {F : Framework}.

(** *** Primitive effects *)

Definition emit {A : Type} (log : A -> list event) (put : A -> list event -> A)
    (e : event) : M A unit :=
  fun s => (Ret tt, put s (log s ++ [e])%list).

(** On a bare trace, while the object is being constructed. *)
Definition emit0 : event -> M (list event) unit :=
  emit (fun tr => tr) (fun _ tr => tr).

(** On an instance and its trace. *)
Definition emitW : event -> M World unit :=
  emit trace (fun w tr => {| self := self w; trace := tr |}).

Definition get_self : M World Inpainting := fun w => (Ret (self w), w).

(** The world in which [self.pipeline.scheduler] is [s] and nothing else
    has changed. *)
Definition install (s : Scheduler) (w : World) : World :=
  let i := self w in
  let p := pipeline i in
  {| self := {| model := model i;
                device := device i;
                output_path := output_path i;
                pipeline := {| weights := weights p;
                               torch_dtype := torch_dtype p;
                               scheduler := s;
                               safety_checker := safety_checker p;
                               attention_slicing := attention_slicing p |};
                _compatible_schedulers := _compatible_schedulers i;
                scheduler_config := scheduler_config i;
                compatible_schedulers := compatible_schedulers i |};
     trace := trace w |}.

(** [self.pipeline.scheduler = s] *)
Definition set_pipeline_scheduler (s : Scheduler) : M World unit :=
  fun w => (Ret tt, install s w).

(** [d[k]] *)
Definition subscript {S V : Type} (d : PyDict.dict V) (k : string) : M S V :=
  match PyDict.get d k with
  | Some v => ret v
  | None => raise (KeyError k)
  end.

(** *** [utils] *)

(** Modelled from the spec: [utils.save_images], which is not among the
    sources.  The spec has the outputs "saved to disk" as "PNG images with
    an embedded text field containing a JSON object", "written under a
    configured output directory"; the model records the write with the
    images, the module name, the text to embed and the directory. *)
Definition save_images (images : list Image) (module : string)
    (metadata : string) (output_path : option string) : M World unit :=
  emitW (SaveImages images module metadata output_path).

(** Modelled from the spec: [utils.display_and_download_images], which is
    not among the sources; the UI "displays results". *)
Definition display_and_download_images (images : list Image)
    (metadata : PngInfo) : M World unit :=
  emitW (DisplayAndDownload images metadata).

(** *** [Inpainting.__str__] *)

Definition fmt (o : option string) : string :=
  match o with
  | Some s => s
  | None => "None"
  end.

Definition __str__ : M World string :=
  self <- get_self ;;
  ret ("Inpainting(model=" ++ fmt (model self) ++ ", device=" ++ fmt (device self)
       ++ ", output_path=" ++ fmt (output_path self) ++ ")").

(** *** [Inpainting.__post_init__] *)

Definition img_url : string :=
  "https://raw.githubusercontent.com/CompVis/latent-diffusion/main/data/inpainting_examples/overture-creations-5sI6fQgYIuo.png".
Definition mask_url : string :=
  "https://raw.githubusercontent.com/CompVis/latent-diffusion/main/data/inpainting_examples/overture-creations-5sI6fQgYIuo_mask.png".

Definition download_image (url : string) : M (list event) Image :=
  emit0 (HttpGet url) ;;
  response <- lift (requests_get url) ;;
  im <- lift (Image_open response) ;;
  ret (Convert "RGB" im).

(** The dataclass [__init__] stores the three fields and runs
    [__post_init__]; the instance exists only if that returns. *)
Definition __post_init__ (model device output_path : option string)
    : M (list event) Inpainting :=
  emit0 (FromPretrained model
           (if device_is device "cuda" then float16 else float32)) ;;
  '(w, s) <- lift (from_pretrained model
                     (if device_is device "cuda" then float16 else float32)) ;;
  emit0 (PipelineTo device) ;;
  w <- lift (to_device w device) ;;
  let _compatible_schedulers := compatibles s in
  let scheduler_config := config s in
  let compatible_schedulers :=
    PyDict.comprehension class_name _compatible_schedulers in
  let mk (slicing : bool) :=
    {| model := model; device := device; output_path := output_path;
       pipeline := {| weights := w;
                      torch_dtype := if device_is device "cuda" then float16 else float32;
                      scheduler := s;
                      safety_checker := no_safety_checker;
                      attention_slicing := slicing |};
       _compatible_schedulers := _compatible_schedulers;
       scheduler_config := scheduler_config;
       compatible_schedulers := compatible_schedulers |} in
  if device_is device "mps" then
    let self := mk true in
    init_image <- download_image img_url ;;
    let init_image := Resize 512 512 None init_image in
    mask_image <- download_image mask_url ;;
    let mask_image := Resize 512 512 None mask_image in
    let prompt := "Face of a yellow cat, high resolution, sitting on a park bench" in
    let kw := {| kw_prompt := prompt;
                 kw_negative_prompt := None;
                 kw_image := init_image;
                 kw_mask_image := mask_image;
                 kw_num_inference_steps := 2;
                 kw_guidance_scale := None;
                 kw_num_images_per_prompt := None;
                 kw_generator := None;
                 kw_height := None;
                 kw_width := None |} in
    emit0 (PipelineCall (pipeline self) kw) ;;
    _ <- lift (denoise (pipeline self) kw) ;;
    ret self
  else ret (mk false).

(** *** [Inpainting._set_scheduler] *)

(** [self.pipeline.scheduler] *)
Definition current_scheduler (self : Inpainting) : Scheduler :=
  scheduler (pipeline self).

Definition _set_scheduler (scheduler_name : string) : M World unit :=
  self <- get_self ;;
  cls <- subscript (compatible_schedulers self) scheduler_name ;;
  let scheduler := from_config cls (scheduler_config self) in
  set_pipeline_scheduler scheduler.

(** *** [Inpainting.generate_image] *)

(** [self.pipeline(...).images], with the keywords [kw] *)
Definition call_pipeline (kw : pipeline_call) : M World (list Image) :=
  self <- get_self ;;
  emitW (PipelineCall (pipeline self) kw) ;;
  lift (denoise (pipeline self) kw).

Definition metadata_dict (prompt negative_prompt : string) (guidance_scale : pyfloat)
    (scheduler : string) (steps seed : Z) : PyDict.dict json :=
  [ ("prompt", JString prompt);
    ("negative_prompt", JString negative_prompt);
    ("guidance_scale", JFloat guidance_scale);
    ("scheduler", JString scheduler);
    ("steps", JInt steps);
    ("seed", JInt seed) ].

(** The check every [manual_seed] makes on its argument. *)
Definition check_seed (seed : Z) : M World unit :=
  if seed_in_range seed then ret tt
  else raise (ValueError "Overflow when unpacking long long").

(** [torch.manual_seed(seed)]: reseeds the global generator and returns it. *)
Definition torch_manual_seed (seed : Z) : M World Generator :=
  check_seed seed ;;
  emitW (ManualSeed seed) ;;
  ret (global_generator seed).

(** [torch.Generator(device=device).manual_seed(seed)] *)
Definition Generator_manual_seed (device : option string) (seed : Z)
    : M World Generator :=
  check_seed seed ;;
  ret (device_generator device seed).

Definition generate_image (prompt negative_prompt : string) (image mask : Image)
    (guidance_scale : pyfloat) (scheduler : string) (steps seed height width : Z)
    (num_images : Z) : M World (list Image * PngInfo) :=
  _set_scheduler scheduler ;;
  self <- get_self ;;
  emitW (LogInfo (current_scheduler self)) ;;
  '(generator, num_images) <-
     (if device_is (device self) "mps" then
        generator <- torch_manual_seed seed ;;
        ret (generator, 1)
      else
        generator <- Generator_manual_seed (device self) seed ;;
        ret (generator, num_images)) ;;
  output_images <- call_pipeline
    {| kw_prompt := prompt;
       kw_negative_prompt := Some negative_prompt;
       kw_image := image;
       kw_mask_image := mask;
       kw_num_inference_steps := steps;
       kw_guidance_scale := Some guidance_scale;
       kw_num_images_per_prompt := Some num_images;
       kw_generator := Some generator;
       kw_height := Some height;
       kw_width := Some width |} ;;
  let metadata :=
    metadata_dict prompt negative_prompt guidance_scale scheduler steps seed in
  let metadata := json_dumps metadata in
  let _metadata := PngInfo_new in
  let _metadata := add_text _metadata "inpainting" metadata in
  save_images output_images "inpainting" metadata (output_path self) ;;
  emitW EmptyCache ;;
  emitW GcCollect ;;
  ret (output_images, _metadata).

(** *** [Inpainting.app] *)

(** What [st_canvas] hands back: the RGBA raster ([None] before the first
    render) and the list under [json_data["objects"]] ([json_data] itself
    may be [None]). *)
Record canvas_result : Type := {
  image_data : option ndarray;
  json_data : option (list string)
}.

(** The state of the canvas component in the browser. *)
Record Drawing : Type := {
  raster : option nat;
  objects : option (list string)
}.

(** [st_canvas(..., height=h, width=w, ...)]: the raster has [h] rows and
    [w] columns. *)
Definition st_canvas (height width : Z) (d : Drawing) : canvas_result :=
  {| image_data := match raster d with
                   | Some px => Some {| nd_rows := height; nd_cols := width; nd_data := px |}
                   | None => None
                   end;
     json_data := objects d |}.

(** The values of the form's widgets in one script run. *)
Record Widgets : Type := {
  inpainting_prompt : string;
  inpainting_negative_prompt : string;
  inpainting_uploaded_file : option Blob;
  inpainting_scheduler : option nat;      (* the entry picked, if any was *)
  inpainting_guidance_scale : pyfloat;
  inpainting_num_images : bounded 1 30;
  inpainting_steps : bounded 1 150;
  inpainting_seed : bounded 1 999999;
  inpainting_drawing_mode : string;
  inpainting_stroke_width : bounded 1 25;
  inpainting_canvas : Drawing;
  inpainting_submit : bool
}.

(** [st.selectbox(label, options, index=i)]: the entry picked by the user,
    or the one at [index] while nothing was picked; [None] when there is
    no such entry. *)
Definition selectbox (options : list string) (index : nat) (picked : option nat)
    : option string :=
  nth_error options (match picked with Some i => i | None => index end).

Definition Euler : string := "EulerAncestralDiscreteScheduler".

(** Lines 130-134: the list offered by the scheduler select box. *)
Definition available_schedulers (self : Inpainting) : M World (list string) :=
  let available_schedulers := PyDict.keys (compatible_schedulers self) in
  if PyList.contains Euler available_schedulers then
    i <- match PyList.index Euler available_schedulers with
         | Some i => ret i
         | None => raise (ValueError "'EulerAncestralDiscreteScheduler' is not in list")
         end ;;
    '(x, available_schedulers) <-
       match PyList.pop i available_schedulers with
       | Some r => ret r
       | None => raise (IndexError "pop index out of range")
       end ;;
    ret (PyList.insert 0 x available_schedulers)
  else ret available_schedulers.

(** The condition of the [if] at lines 161-166; [and] evaluates left to
    right and stops at the first false operand, so [json_data] is only
    subscripted when the raster is there. *)
Definition submit_guard (canvas : canvas_result) (pil_image : Image) (submit : bool)
    : M World bool :=
  match image_data canvas with
  | None => ret false
  | Some _ =>
      if Image_bool pil_image then
        objs <- match json_data canvas with
                | Some objs => ret objs
                | None => raise (TypeError "'NoneType' object is not subscriptable")
                end ;;
        if (0 <? Z.of_nat (length objs)) then ret submit else ret false
      else ret false
  end.

Definition app (ui : Widgets) : M World unit :=
  self <- get_self ;;
  let prompt := inpainting_prompt ui in
  let negative_prompt := inpainting_negative_prompt ui in
  let uploaded_file := inpainting_uploaded_file ui in
  available_schedulers <- available_schedulers self ;;
  let scheduler := selectbox available_schedulers 0 (inpainting_scheduler ui) in
  let guidance_scale := inpainting_guidance_scale ui in
  let num_images := value (inpainting_num_images ui) in
  let steps := value (inpainting_steps ui) in
  let seed := value (inpainting_seed ui) in
  match uploaded_file with
  | None => ret tt
  | Some uploaded_file =>
      pil_image <- lift (Image_open uploaded_file) ;;
      let pil_image := Convert "RGB" pil_image in
      let '(img_height, img_width) := size pil_image in
      let canvas_result := st_canvas 768 768 (inpainting_canvas ui) in
      let submit := inpainting_submit ui in
      go <- submit_guard canvas_result pil_image submit ;;
      if go then
        match image_data canvas_result with
        | None => raise (TypeError "'NoneType' object is not subscriptable")
        | Some image_data =>
            let mask_npy := Fromarray image_data 3 in
            let mask_pil := Convert "RGB" mask_npy in
            let mask_pil := Resize img_width img_height (Some LANCZOS) mask_pil in
            '(output_images, metadata) <-
               match scheduler with
               | Some scheduler =>
                   generate_image prompt negative_prompt pil_image mask_pil
                     guidance_scale scheduler steps seed img_height img_width num_images
               | None =>
                   (* an empty select box yields [None], which is no key of
                      [compatible_schedulers]: [_set_scheduler] raises *)
                   raise (KeyError "None")
               end ;;
            display_and_download_images output_images metadata
        end
      else ret tt
  end.

End Program.

(** *** Sequences of operations on one instance *)

Section Lifecycle.
Context {X : Externals} {F : Framework}.

(** The arguments of one [generate_image] call. *)
Record request : Type := {
  prompt : string;
  negative_prompt : string;
  image : Image;
  mask : Image;
  guidance_scale : pyfloat;
  scheduler_name : string;
  steps : Z;
  seed : Z;
  height : Z;
  width : Z;
  num_images : Z
}.

Definition generate (r : request) : M World (list Image * PngInfo) :=
  generate_image (prompt r) (negative_prompt r) (image r) (mask r)
    (guidance_scale r) (scheduler_name r) (steps r) (seed r) (height r) (width r)
    (num_images r).

(** The operations a caller can apply to an instance. *)
Inductive operation : Type :=
| call_set_scheduler (name : string)
| call_generate_image (r : request)
| call_app (ui : Widgets)
| call_str.

(** The world after an operation, whether it returned or raised. *)
Definition after (o : operation) (w : World) : World :=
  match o with
  | call_set_scheduler name => snd (_set_scheduler name w)
  | call_generate_image r => snd (generate r w)
  | call_app ui => snd (app ui w)
  | call_str => snd (__str__ w)
  end.

Inductive reachable (w0 : World) : World -> Prop :=
| reach_start : reachable w0 w0
| reach_step (w : World) (o : operation) :
    reachable w0 w -> reachable w0 (after o w).

(** The pipeline calls of a trace, oldest first. *)
Fixpoint pipeline_calls (tr : list event) : list (Pipeline * pipeline_call) :=
  match tr with
  | [] => []
  | PipelineCall p kw :: r => (p, kw) :: pipeline_calls r
  | _ :: r => pipeline_calls r
  end.

(** The writes of a trace: images and the text embedded in them. *)
Fixpoint saved (tr : list event) : list (list Image * string) :=
  match tr with
  | [] => []
  | SaveImages images _ metadata _ :: r => (images, metadata) :: saved r
  | _ :: r => saved r
  end.

(** Two instances that agree on everything but [pipeline.scheduler]. *)
Definition same_but_scheduler (a b : Inpainting) : Prop :=
  model a = model b /\ device a = device b /\ output_path a = output_path b /\
  weights (pipeline a) = weights (pipeline b) /\
  torch_dtype (pipeline a) = torch_dtype (pipeline b) /\
  safety_checker (pipeline a) = safety_checker (pipeline b) /\
  attention_slicing (pipeline a) = attention_slicing (pipeline b) /\
  _compatible_schedulers a = _compatible_schedulers b /\
  scheduler_config a = scheduler_config b /\
  compatible_schedulers a = compatible_schedulers b.

End Lifecycle.

(** ** A concrete framework, to run the definitions on

    Floats are given by their [repr], blobs by the image they decode to (an
    image of width 0 stands for a file that does not decode), a scheduler by
    its class name and configuration.  The pipeline refuses sizes that are
    not multiples of 8 and otherwise returns as many images as asked for. *)

Module Reference.

Definition externals : Externals :=
  {| pyfloat := string; Blob := Image; Weights := string;
     SchedulerClass := string; SchedulerConfig := nat;
     Scheduler := (string * nat)%type |}.

Definition quote : string := String (ascii_of_nat 34) EmptyString.

Definition dumps_value (v : @json externals) : string :=
  match v with
  | JString s => quote ++ s ++ quote
  | JInt z => NilZero.string_of_int (Z.to_int z)
  | JFloat f => f
  end.

Fixpoint dumps_members (d : PyDict.dict (@json externals)) : string :=
  match d with
  | [] => ""
  | [(k, v)] => quote ++ k ++ quote ++ ": " ++ dumps_value v
  | (k, v) :: r => quote ++ k ++ quote ++ ": " ++ dumps_value v ++ ", " ++ dumps_members r
  end.

Definition images (kw : @pipeline_call externals) : list Image :=
  let w := match kw_width kw with Some w => w | None => 512 end in
  let h := match kw_height kw with Some h => h | None => 512 end in
  let n := match kw_num_images_per_prompt kw with Some n => Z.to_nat n | None => 1%nat end in
  map (fun i => Raster "RGB" w h i) (seq 0 n).

Definition framework : @Framework externals :=
  {| class_name := fun c : @SchedulerClass externals => c;
     from_config := fun (c : @SchedulerClass externals) (cfg : @SchedulerConfig externals) =>
                      ((c, cfg) : @Scheduler externals);
     compatibles := fun _ => ["PNDMScheduler"; "DDIMScheduler";
                              "EulerAncestralDiscreteScheduler"; "LMSDiscreteScheduler"];
     config := fun s : @Scheduler externals => (snd s : @SchedulerConfig externals);
     from_pretrained := fun m _ =>
       match m with
       | Some name => Ret ((name, ("PNDMScheduler", 1000%nat)) : @Weights externals * @Scheduler externals)
       | None => Raise (FrameworkError "model id is None")
       end;
     to_device := fun w _ => Ret w;
     denoise := fun _ kw =>
       let w := match kw_width kw with Some w => w | None => 512 end in
       let h := match kw_height kw with Some h => h | None => 512 end in
       if ((w mod 8 =? 0) && (h mod 8 =? 0))%bool then Ret (images kw)
       else Raise (FrameworkError "height and width have to be divisible by 8");
     requests_get := fun _ => Ret (Raster "RGB" 512 512 0 : @Blob externals);
     Image_open := fun b : @Blob externals =>
       if fst (size b) =? 0 then Raise (FrameworkError "cannot identify image file")
       else Ret (b : Image);
     json_dumps := fun d => "{" ++ dumps_members d ++ "}" |}.

(** *** Concrete instances and inputs *)

Definition names : list string :=
  ["PNDMScheduler"; "DDIMScheduler"; "EulerAncestralDiscreteScheduler";
   "LMSDiscreteScheduler"].

(** [Inpainting(model="sd-inpainting", device=d, output_path="out")], once
    constructed. *)
Definition instance (d : string) : @Inpainting externals :=
  @Build_Inpainting externals
    (Some "sd-inpainting") (Some d) (Some "out")
    (@Build_Pipeline externals "sd-inpainting"
       (if String.eqb d "cuda" then float16 else float32)
       ("PNDMScheduler", 1000%nat) no_safety_checker (String.eqb d "mps"))
    names 1000%nat (map (fun n => (n, n)) names).

(** What the constructor leaves in the trace on every device: the model
    was loaded and moved. *)
Definition loading (d : string) : list (@event externals) :=
  [ FromPretrained (Some "sd-inpainting")
      (if String.eqb d "cuda" then float16 else float32);
    PipelineTo (Some d) ].

Definition cpu : @World externals :=
  {| self := instance "cpu"; trace := loading "cpu" |}.

(** On mps the constructor leaves its warm-up behind in the trace as well. *)
Definition warmup : list (@event externals) :=
  [ HttpGet img_url;
    HttpGet mask_url;
    PipelineCall (pipeline (instance "mps"))
      (@Build_pipeline_call externals
         "Face of a yellow cat, high resolution, sitting on a park bench" None
         (Resize 512 512 None (Convert "RGB" (Raster "RGB" 512 512 0)))
         (Resize 512 512 None (Convert "RGB" (Raster "RGB" 512 512 0)))
         2 None None None None None) ].

Definition mps : @World externals :=
  {| self := instance "mps"; trace := (loading "mps" ++ warmup)%list |}.

Definition photo : Image := Raster "RGB" 640 480 7.
Definition square : Image := Raster "RGB" 512 512 8.
Definition hole : Image := Raster "RGB" 512 512 9.
Definition thumbnail : Image := Raster "RGB" 100 100 10.
Definition garbage : Image := Raster "" 0 0 11.

Definition req (width num_images : Z) : @request externals :=
  @Build_request externals "a cat" "blurry" square hole "7.5" "DDIMScheduler"
    50 42 512 width num_images.

Definition form (file : option Image) (d : Drawing) (submit : bool)
    : @Widgets externals :=
  @Build_Widgets externals "a cat" "blurry" file None "7.5"
    (Build_bounded 1 30 2 eq_refl) (Build_bounded 1 150 50 eq_refl)
    (Build_bounded 1 999999 42 eq_refl)
    "freedraw" (Build_bounded 1 25 8 eq_refl) d submit.

Definition stroke : Drawing := {| raster := Some 1%nat; objects := Some ["path"] |}.
Definition blank : Drawing := {| raster := Some 0%nat; objects := Some [] |}.

(** A canvas whose raster is there while its [json_data] is still [None]. *)
Definition unreported : Drawing := {| raster := Some 2%nat; objects := None |}.

(** The same framework with faults: without [network] every [requests.get]
    raises, without [move] the pipeline cannot be moved to the device. *)
Definition faulty (network move : bool) : @Framework externals :=
  {| class_name := class_name (Framework := framework);
     from_config := from_config (Framework := framework);
     compatibles := compatibles (Framework := framework);
     config := config (Framework := framework);
     from_pretrained := from_pretrained (Framework := framework);
     to_device := fun w _ =>
       if move then Ret w else Raise (FrameworkError "unsupported device");
     denoise := denoise (Framework := framework);
     requests_get := fun _ =>
       if network then Ret (Raster "RGB" 512 512 0 : @Blob externals)
       else Raise (FrameworkError "connection failed");
     Image_open := Image_open (Framework := framework);
     json_dumps := json_dumps (Framework := framework) |}.

End Reference.

(** * Properties *)

(** ** Python lists and dicts *)

Lemma contains_In (x : string) (l : list string) :
  PyList.contains x l = true <-> In x l.
Proof.
  unfold PyList.contains. rewrite existsb_exists. split.
  - intros [y [Hin Heq]]. apply String.eqb_eq in Heq. now subst.
  - intros Hin. exists x. split; [assumption | apply String.eqb_refl].
Qed.

(** [l.index(x)] finds the first occurrence, when there is one. *)
Lemma index_first (x : string) (l : list string) :
  In x l ->
  exists l1 l2, l = (l1 ++ x :: l2)%list /\ ~ In x l1 /\
                PyList.index x l = Some (length l1).
Proof.
  induction l as [| y r IH]; intros Hin; [destruct Hin |].
  simpl. destruct (String.eqb x y) eqn:E.
  - apply String.eqb_eq in E. subst y. exists [], r. simpl. auto.
  - apply String.eqb_neq in E.
    destruct Hin as [-> | Hin]; [congruence |].
    destruct (IH Hin) as [l1 [l2 [-> [Hn Hi]]]].
    exists (y :: l1), l2. rewrite Hi. simpl. repeat split; try reflexivity.
    intros [H | H]; [congruence | contradiction].
Qed.

Lemma pop_middle {A : Type} (l1 l2 : list A) (x : A) :
  PyList.pop (length l1) (l1 ++ x :: l2) = Some (x, (l1 ++ l2)%list).
Proof.
  induction l1 as [| y r IH]; simpl; [reflexivity |]. now rewrite IH.
Qed.

Lemma get_keys {V : Type} (d : PyDict.dict V) (k : string) :
  In k (PyDict.keys d) <-> exists v, PyDict.get d k = Some v.
Proof.
  unfold PyDict.keys. induction d as [| [k' v'] r IH]; simpl.
  - split; [intros [] | intros [v H]; discriminate].
  - destruct (String.eqb k k') eqn:E.
    + apply String.eqb_eq in E. subst. split; eauto.
    + apply String.eqb_neq in E. rewrite <- IH. split.
      * intros [H | H]; [congruence | assumption].
      * auto.
Qed.

Lemma keys_set {V : Type} (d : PyDict.dict V) (k : string) (v : V) :
  PyDict.keys (PyDict.set d k v) =
  if PyList.contains k (PyDict.keys d) then PyDict.keys d
  else (PyDict.keys d ++ [k])%list.
Proof.
  unfold PyDict.keys, PyList.contains.
  induction d as [| [k' v'] r IH]; simpl; [reflexivity |].
  destruct (String.eqb k k') eqn:E; simpl; [reflexivity |].
  rewrite IH. now destruct (existsb (String.eqb k) (map fst r)).
Qed.

Lemma keys_fold_set {V : Type} (key : V -> string) (l : list V) (d : PyDict.dict V) :
  NoDup (PyDict.keys d) ->
  NoDup (PyDict.keys (fold_left (fun d x => PyDict.set d (key x) x) l d)) /\
  forall k, In k (PyDict.keys (fold_left (fun d x => PyDict.set d (key x) x) l d)) <->
            In k (PyDict.keys d) \/ In k (map key l).
Proof.
  revert d. induction l as [| x l IH]; intros d Hd; simpl.
  - split; [assumption | intros k; tauto].
  - assert (NoDup (PyDict.keys (PyDict.set d (key x) x)) /\
            forall k, In k (PyDict.keys (PyDict.set d (key x) x)) <->
                      In k (PyDict.keys d) \/ key x = k) as [Hnd Hin].
    { rewrite keys_set.
      destruct (PyList.contains (key x) (PyDict.keys d)) eqn:E.
      - apply contains_In in E. split; [assumption |].
        intros k. split; [tauto | intros [H | <-]; assumption].
      - assert (~ In (key x) (PyDict.keys d)) as Hn
          by (intros H; apply contains_In in H; congruence).
        split.
        + apply NoDup_app; [assumption | repeat constructor; intros [] |].
          intros a Ha [<- | []]. contradiction.
        + intros k. rewrite in_app_iff. simpl. tauto. }
    destruct (IH _ Hnd) as [Hnd' Hin']. split; [assumption |].
    intros k. rewrite Hin', Hin. tauto.
Qed.

(** The keys of [{key(x): x for x in l}] are the keys of the elements of
    [l], each once. *)
Lemma comprehension_keys {V : Type} (key : V -> string) (l : list V) :
  NoDup (PyDict.keys (PyDict.comprehension key l)) /\
  forall k, In k (PyDict.keys (PyDict.comprehension key l)) <-> In k (map key l).
Proof.
  destruct (keys_fold_set key l [] (NoDup_nil _)) as [Hnd Hin].
  split; [exact Hnd |]. intros k. unfold PyDict.comprehension. rewrite Hin.
  simpl. tauto.
Qed.

(** ** The operations, run *)

Section Runs.
Context {X : Externals} {F : Framework}.

Lemma set_scheduler_known (name : string) (cls : SchedulerClass) (w : World) :
  PyDict.get (compatible_schedulers (self w)) name = Some cls ->
  _set_scheduler name w =
  (Ret tt, install (from_config cls (scheduler_config (self w))) w).
Proof.
  intros H. unfold _set_scheduler, bind, get_self, subscript.
  rewrite H. reflexivity.
Qed.

Lemma set_scheduler_unknown (name : string) (w : World) :
  PyDict.get (compatible_schedulers (self w)) name = None ->
  _set_scheduler name w = (Raise (KeyError name), w).
Proof.
  intros H. unfold _set_scheduler, bind, get_self, subscript.
  rewrite H. reflexivity.
Qed.

(** One [generate_image] call whose scheduler name is known and whose seed
    is accepted, step by step: the scheduler is swapped, logged, the
    generator is made, the pipeline is called, and only if that returns are
    the images saved. *)
Lemma generate_image_run (prompt negative_prompt : string) (image mask : Image)
    (guidance_scale : pyfloat) (name : string) (steps seed height width : Z)
    (num_images : Z) (cls : SchedulerClass) (w : World) :
  PyDict.get (compatible_schedulers (self w)) name = Some cls ->
  seed_in_range seed = true ->
  let s := from_config cls (scheduler_config (self w)) in
  let w1 := install s w in
  let on_mps := device_is (device (self w)) "mps" in
  let kw := {| kw_prompt := prompt;
               kw_negative_prompt := Some negative_prompt;
               kw_image := image;
               kw_mask_image := mask;
               kw_num_inference_steps := steps;
               kw_guidance_scale := Some guidance_scale;
               kw_num_images_per_prompt := Some (if on_mps then 1 else num_images);
               kw_generator := Some (if on_mps then global_generator seed
                                     else device_generator (device (self w)) seed);
               kw_height := Some height;
               kw_width := Some width |} in
  let before := (trace w ++ LogInfo s
                   :: (if on_mps then [ManualSeed seed] else [])
                   ++ [PipelineCall (pipeline (self w1)) kw])%list in
  let text := json_dumps (metadata_dict prompt negative_prompt guidance_scale
                            name steps seed) in
  generate_image prompt negative_prompt image mask guidance_scale name steps seed
    height width num_images w =
  match denoise (pipeline (self w1)) kw with
  | Ret output_images =>
      (Ret (output_images, [("inpainting", text)]),
       {| self := self w1;
          trace := (before ++ [SaveImages output_images "inpainting" text
                                 (output_path (self w));
                               EmptyCache; GcCollect])%list |})
  | Raise e => (Raise e, {| self := self w1; trace := before |})
  end.
Proof.
  intros H Hseed s w1 on_mps kw before text.
  unfold generate_image, bind. rewrite (set_scheduler_known _ _ _ H).
  fold s. fold w1. unfold get_self, emitW, emit, call_pipeline,
    torch_manual_seed, Generator_manual_seed, check_seed, bind, lift, ret,
    save_images, emitW, emit, current_scheduler.
  rewrite Hseed. cbn [self trace fst snd].
  subst before kw on_mps. cbn [w1 install self device output_path pipeline trace].
  destruct (device_is (device (self w)) "mps"); cbn -[denoise json_dumps metadata_dict];
    match goal with |- context [denoise ?p ?k] => destruct (denoise p k) end;
    cbn -[json_dumps metadata_dict]; unfold add_text, PngInfo_new;
    repeat rewrite <- app_assoc; reflexivity.
Qed.

(** A call whose scheduler name is known and whose seed is not accepted: the
    scheduler is swapped and logged, then [manual_seed] raises. *)
Lemma generate_image_bad_seed (prompt negative_prompt : string) (image mask : Image)
    (guidance_scale : pyfloat) (name : string) (steps seed height width : Z)
    (num_images : Z) (cls : SchedulerClass) (w : World) :
  PyDict.get (compatible_schedulers (self w)) name = Some cls ->
  seed_in_range seed = false ->
  let s := from_config cls (scheduler_config (self w)) in
  generate_image prompt negative_prompt image mask guidance_scale name steps seed
    height width num_images w =
  (Raise (ValueError "Overflow when unpacking long long"),
   {| self := self (install s w); trace := (trace w ++ [LogInfo s])%list |}).
Proof.
  intros H Hseed s.
  unfold generate_image, bind. rewrite (set_scheduler_known _ _ _ H).
  fold s. unfold get_self, emitW, emit, torch_manual_seed, Generator_manual_seed,
    check_seed, bind, raise, current_scheduler.
  rewrite Hseed. cbn [self trace fst snd install device].
  destruct (device_is (device (self w)) "mps"); reflexivity.
Qed.

End Runs.

Lemma known_name {V : Type} (d : PyDict.dict V) (name : string) :
  PyList.contains name (PyDict.keys d) = true ->
  exists v, PyDict.get d name = Some v.
Proof. intros H. apply get_keys, contains_In, H. Qed.

Lemma unknown_name {V : Type} (d : PyDict.dict V) (name : string) :
  PyList.contains name (PyDict.keys d) = false ->
  PyDict.get d name = None.
Proof.
  intros H. destruct (PyDict.get d name) eqn:E; [| reflexivity].
  assert (In name (PyDict.keys d)) as Hin by (apply get_keys; eauto).
  apply contains_In in Hin. congruence.
Qed.

(** Every seed the number input can hold is one [manual_seed] accepts. *)
Lemma widget_seed_accepted (b : bounded 1 999999) : seed_in_range (value b) = true.
Proof.
  destruct b as [v Hv]. cbn [value]. apply andb_prop in Hv. destruct Hv as [Hlo Hhi].
  apply Z.leb_le in Hlo, Hhi. unfold seed_in_range.
  apply andb_true_intro. split; [apply Z.leb_le | apply Z.ltb_lt];
    [change (- 2 ^ 63) with (-9223372036854775808) |
     change (2 ^ 64) with 18446744073709551616]; lia.
Qed.

(** ** Scheduler selection *)

(** C4. For a scheduler name of the compatibility set, setting the scheduler
    twice in a row succeeds and ends in the very same world, hence with the
    same pipeline scheduler, as setting it once; that scheduler is the named
    class instantiated from the stored configuration. *)
Theorem set_scheduler_idempotent {X : Externals} {F : Framework}
    (name : string) (w : World) :
  PyList.contains name (PyDict.keys (compatible_schedulers (self w))) = true ->
  (_set_scheduler name ;; _set_scheduler name) w = _set_scheduler name w /\
  fst (_set_scheduler name w) = Ret tt /\
  exists cls, PyDict.get (compatible_schedulers (self w)) name = Some cls /\
              current_scheduler (self (snd (_set_scheduler name w))) =
              from_config cls (scheduler_config (self w)).
Proof.
  intros Hin. destruct (known_name _ _ Hin) as [cls Hcls].
  pose proof (set_scheduler_known name cls w Hcls) as Hone.
  set (w1 := install (from_config cls (scheduler_config (self w))) w) in *.
  assert (_set_scheduler name w1 = (Ret tt, w1)) as Htwo.
  { rewrite (set_scheduler_known name cls w1) by exact Hcls. reflexivity. }
  repeat split.
  - unfold bind at 1. rewrite Hone. exact Htwo.
  - now rewrite Hone.
  - exists cls. split; [exact Hcls |]. now rewrite Hone.
Qed.

Lemma set_scheduler_idempotent_witness :
  PyList.contains "DDIMScheduler"
    (PyDict.keys (compatible_schedulers (self Reference.cpu))) = true /\
  (_set_scheduler (F := Reference.framework) "DDIMScheduler" ;;
   _set_scheduler (F := Reference.framework) "DDIMScheduler") Reference.cpu =
  _set_scheduler (F := Reference.framework) "DDIMScheduler" Reference.cpu.
Proof.
  split; [reflexivity |].
  apply (set_scheduler_idempotent (F := Reference.framework) "DDIMScheduler"
           Reference.cpu).
  reflexivity.
Defined.

(** ** What reaches the pipeline *)

Lemma pipeline_calls_app {X : Externals} (a b : list event) :
  pipeline_calls (a ++ b) = (pipeline_calls a ++ pipeline_calls b)%list.
Proof.
  induction a as [| e a IH]; simpl; [reflexivity |].
  destruct e; simpl; now rewrite ?IH.
Qed.

Lemma saved_app {X : Externals} (a b : list event) :
  saved (a ++ b) = (saved a ++ saved b)%list.
Proof.
  induction a as [| e a IH]; simpl; [reflexivity |].
  destruct e; simpl; now rewrite ?IH.
Qed.

(** A call with a known scheduler name and an accepted seed makes exactly
    one pipeline call, on the pipeline that carries the freshly installed
    scheduler. *)
Lemma generate_image_calls {X : Externals} {F : Framework}
    (prompt negative_prompt : string) (image mask : Image)
    (guidance_scale : pyfloat) (name : string) (steps seed height width : Z)
    (num_images : Z) (cls : SchedulerClass) (w : World) :
  PyDict.get (compatible_schedulers (self w)) name = Some cls ->
  seed_in_range seed = true ->
  pipeline_calls
    (trace (snd (generate_image prompt negative_prompt image mask guidance_scale
                   name steps seed height width num_images w))) =
  (pipeline_calls (trace w) ++
   [(pipeline (self (install (from_config cls (scheduler_config (self w))) w)),
     {| kw_prompt := prompt;
        kw_negative_prompt := Some negative_prompt;
        kw_image := image;
        kw_mask_image := mask;
        kw_num_inference_steps := steps;
        kw_guidance_scale := Some guidance_scale;
        kw_num_images_per_prompt :=
          Some (if device_is (device (self w)) "mps" then 1 else num_images);
        kw_generator :=
          Some (if device_is (device (self w)) "mps" then global_generator seed
                else device_generator (device (self w)) seed);
        kw_height := Some height;
        kw_width := Some width |})])%list.
Proof.
  intros H Hseed.
  rewrite (generate_image_run prompt negative_prompt image mask guidance_scale
             name steps seed height width num_images cls w H Hseed).
  cbv zeta.
  match goal with |- context [denoise ?p ?k] => destruct (denoise p k) end;
    cbn [snd trace]; repeat rewrite pipeline_calls_app;
    destruct (device_is (device (self w)) "mps"); cbn [pipeline_calls app];
    rewrite ?app_nil_r; reflexivity.
Qed.

(** A call whose seed is not accepted raises [ValueError] and makes no
    pipeline call, whatever the scheduler name. *)
Lemma generate_image_no_call {X : Externals} {F : Framework}
    (prompt negative_prompt : string) (image mask : Image)
    (guidance_scale : pyfloat) (name : string) (steps seed height width : Z)
    (num_images : Z) (cls : SchedulerClass) (w : World) :
  PyDict.get (compatible_schedulers (self w)) name = Some cls ->
  seed_in_range seed = false ->
  let out := generate_image prompt negative_prompt image mask guidance_scale
               name steps seed height width num_images w in
  fst out = Raise (ValueError "Overflow when unpacking long long") /\
  pipeline_calls (trace (snd out)) = pipeline_calls (trace w) /\
  saved (trace (snd out)) = saved (trace w).
Proof.
  intros H Hseed out. subst out.
  rewrite (generate_image_bad_seed prompt negative_prompt image mask guidance_scale
             name steps seed height width num_images cls w H Hseed).
  cbn [fst snd trace]. rewrite pipeline_calls_app, saved_app. cbn.
  now rewrite !app_nil_r.
Qed.

(** 2**64, the least seed above the accepted range. *)
Example seed_2_64_rejected : seed_in_range (2 ^ 64) = false.
Proof. reflexivity. Qed.

(** C8. A call reaches the pipeline when its scheduler name is known and
    its seed is one that [manual_seed] accepts; it then makes one pipeline
    call, and asks for exactly one image per prompt when the device is
    "mps", whatever [num_images] is, and for [num_images] on every other
    device.  With a seed that is not accepted no pipeline call is made. *)
Theorem mps_requests_one_image {X : Externals} {F : Framework}
    (prompt negative_prompt : string) (image mask : Image)
    (guidance_scale : pyfloat) (name : string) (steps seed height width : Z)
    (num_images : Z) (w : World) :
  PyList.contains name (PyDict.keys (compatible_schedulers (self w))) = true ->
  let w' := snd (generate_image prompt negative_prompt image mask guidance_scale
                   name steps seed height width num_images w) in
  if seed_in_range seed then
    exists p kw,
      pipeline_calls (trace w') = (pipeline_calls (trace w) ++ [(p, kw)])%list /\
      kw_num_images_per_prompt kw =
      Some (if device_is (device (self w)) "mps" then 1 else num_images)
  else pipeline_calls (trace w') = pipeline_calls (trace w).
Proof.
  intros Hin w'. destruct (known_name _ _ Hin) as [cls Hcls].
  destruct (seed_in_range seed) eqn:Hseed.
  - eexists. eexists. split.
    + apply generate_image_calls; [exact Hcls | exact Hseed].
    + reflexivity.
  - apply (generate_image_no_call prompt negative_prompt image mask guidance_scale
             name steps seed height width num_images cls w Hcls Hseed).
Qed.

Lemma mps_requests_one_image_witness :
  PyList.contains "DDIMScheduler"
    (PyDict.keys (compatible_schedulers (self Reference.mps))) = true /\
  (exists p kw,
     pipeline_calls
       (trace (snd (generate (F := Reference.framework) (Reference.req 512 4)
                      Reference.mps))) =
     (pipeline_calls (trace Reference.mps) ++ [(p, kw)])%list /\
     kw_num_images_per_prompt kw = Some 1) /\
  (exists p kw,
     pipeline_calls
       (trace (snd (generate (F := Reference.framework) (Reference.req 512 4)
                      Reference.cpu))) = [(p, kw)] /\
     kw_num_images_per_prompt kw = Some 4) /\
  pipeline_calls
    (trace (snd (generate_image (F := Reference.framework)
                   "a cat" "blurry" Reference.square Reference.hole "7.5"
                   "DDIMScheduler" 50 (2 ^ 64) 512 512 4 Reference.mps))) =
  pipeline_calls (trace Reference.mps).
Proof.
  split; [reflexivity | split; [| split]].
  - exact (mps_requests_one_image (F := Reference.framework)
             "a cat" "blurry" Reference.square Reference.hole "7.5" "DDIMScheduler"
             50 42 512 512 4 Reference.mps eq_refl).
  - exact (mps_requests_one_image (F := Reference.framework)
             "a cat" "blurry" Reference.square Reference.hole "7.5" "DDIMScheduler"
             50 42 512 512 4 Reference.cpu eq_refl).
  - exact (mps_requests_one_image (F := Reference.framework)
             "a cat" "blurry" Reference.square Reference.hole "7.5" "DDIMScheduler"
             50 (2 ^ 64) 512 512 4 Reference.mps eq_refl).
Defined.

(** C3, as stated, fails: on "mps" a call that supplies [num_images = 4]
    reaches the pipeline with [num_images_per_prompt = 1]. *)
Lemma image_count_not_forwarded_on_mps :
  device (self Reference.mps) = Some "mps" /\
  exists p kw,
    pipeline_calls
      (trace (snd (generate_image (F := Reference.framework)
                     "a cat" "blurry" Reference.square Reference.hole "7.5"
                     "DDIMScheduler" 50 42 512 512 4 Reference.mps))) =
    (pipeline_calls (trace Reference.mps) ++ [(p, kw)])%list /\
    kw_num_images_per_prompt kw = Some 1 /\
    kw_num_images_per_prompt kw <> Some 4.
Proof.
  split; [reflexivity |].
  eexists. eexists. split; [vm_compute; reflexivity |].
  cbn. split; [reflexivity | discriminate].
Qed.

(** C3, amended. When the scheduler name is known and the seed is one that
    [manual_seed] accepts (from -2**63 up to 2**64 - 1), [generate_image]
    makes one pipeline call; prompt, negative prompt, image, mask, step
    count, guidance scale, height and width are the supplied ones; the
    generator is seeded with the supplied seed, which it holds as an unsigned
    64-bit integer (the seed itself when it is not negative), and is the
    global generator (reseeded by [torch.manual_seed], which the trace
    records) on "mps" and a generator of the configured device otherwise;
    the image count is the supplied one on every device but "mps", where it
    is 1.  With any other seed the call raises [ValueError] and nothing
    reaches the pipeline. *)
Theorem parameters_forwarded {X : Externals} {F : Framework}
    (prompt negative_prompt : string) (image mask : Image)
    (guidance_scale : pyfloat) (name : string) (steps seed height width : Z)
    (num_images : Z) (w : World) :
  PyList.contains name (PyDict.keys (compatible_schedulers (self w))) = true ->
  let out := generate_image prompt negative_prompt image mask guidance_scale
               name steps seed height width num_images w in
  let w' := snd out in
  let on_mps := device_is (device (self w)) "mps" in
  if seed_in_range seed then
    exists p kw,
      pipeline_calls (trace w') = (pipeline_calls (trace w) ++ [(p, kw)])%list /\
      kw_prompt kw = prompt /\
      kw_negative_prompt kw = Some negative_prompt /\
      kw_image kw = image /\
      kw_mask_image kw = mask /\
      kw_num_inference_steps kw = steps /\
      kw_guidance_scale kw = Some guidance_scale /\
      kw_height kw = Some height /\
      kw_width kw = Some width /\
      kw_generator kw = Some (if on_mps then global_generator seed
                              else device_generator (device (self w)) seed) /\
      option_map initial_seed (kw_generator kw) = Some (seed mod 2 ^ 64) /\
      (0 <= seed -> option_map initial_seed (kw_generator kw) = Some seed) /\
      (if on_mps then In (ManualSeed seed) (skipn (length (trace w)) (trace w'))
       else ~ In (ManualSeed seed) (skipn (length (trace w)) (trace w'))) /\
      kw_num_images_per_prompt kw = Some (if on_mps then 1 else num_images)
  else
    fst out = Raise (ValueError "Overflow when unpacking long long") /\
    pipeline_calls (trace w') = pipeline_calls (trace w).
Proof.
  intros Hin out w' on_mps. destruct (known_name _ _ Hin) as [cls Hcls].
  destruct (seed_in_range seed) eqn:Hseed.
  - eexists. eexists.
    split; [apply generate_image_calls; [exact Hcls | exact Hseed] |].
    repeat (split; [reflexivity |]).
    cbn [kw_generator option_map]. fold on_mps.
    split; [destruct on_mps; reflexivity |].
    split.
    { intros Hpos. unfold seed_in_range in Hseed.
      apply andb_prop in Hseed. destruct Hseed as [_ Hhi].
      apply Z.ltb_lt in Hhi.
      destruct on_mps; cbn [initial_seed]; now rewrite Z.mod_small by lia. }
    split; [| reflexivity].
    subst w' out.
    rewrite (generate_image_run prompt negative_prompt image mask guidance_scale
               name steps seed height width num_images cls w Hcls Hseed).
    cbv zeta. fold on_mps.
    match goal with |- context [denoise ?p ?k] => destruct (denoise p k) end;
      cbn [snd trace]; repeat rewrite <- app_assoc;
      rewrite skipn_app, skipn_all, Nat.sub_diag; cbn [skipn app];
      destruct on_mps; cbn; intuition discriminate.
  - destruct (generate_image_no_call prompt negative_prompt image mask
                guidance_scale name steps seed height width num_images cls w
                Hcls Hseed) as [Hraise [Hcalls _]].
    split; assumption.
Qed.

Lemma parameters_forwarded_witness :
  PyList.contains "DDIMScheduler"
    (PyDict.keys (compatible_schedulers (self Reference.cpu))) = true /\
  (exists p kw,
     pipeline_calls
       (trace (snd (generate (F := Reference.framework) (Reference.req 512 4)
                      Reference.cpu))) = [(p, kw)] /\
     kw_prompt kw = "a cat" /\
     kw_negative_prompt kw = Some "blurry" /\
     kw_image kw = Reference.square /\
     kw_mask_image kw = Reference.hole /\
     kw_num_inference_steps kw = 50 /\
     kw_guidance_scale kw = Some "7.5" /\
     kw_height kw = Some 512 /\
     kw_width kw = Some 512 /\
     kw_generator kw = Some (device_generator (Some "cpu") 42) /\
     option_map initial_seed (kw_generator kw) = Some 42 /\
     (0 <= 42 -> option_map initial_seed (kw_generator kw) = Some 42) /\
     ~ In (ManualSeed 42)
         (skipn (length (trace Reference.cpu))
            (trace (snd (generate (F := Reference.framework) (Reference.req 512 4)
                           Reference.cpu)))) /\
     kw_num_images_per_prompt kw = Some 4) /\
  fst (generate_image (F := Reference.framework)
         "a cat" "blurry" Reference.square Reference.hole "7.5" "DDIMScheduler"
         50 (2 ^ 64) 512 512 4 Reference.cpu) =
  Raise (ValueError "Overflow when unpacking long long").
Proof.
  split; [reflexivity | split].
  - exact (parameters_forwarded (F := Reference.framework)
             "a cat" "blurry" Reference.square Reference.hole "7.5" "DDIMScheduler"
             50 42 512 512 4 Reference.cpu eq_refl).
  - exact (proj1 (parameters_forwarded (F := Reference.framework)
             "a cat" "blurry" Reference.square Reference.hole "7.5" "DDIMScheduler"
             50 (2 ^ 64) 512 512 4 Reference.cpu eq_refl)).
Defined.

(** ** Failures *)

Lemma generate_image_unknown {X : Externals} {F : Framework}
    (prompt negative_prompt : string) (image mask : Image)
    (guidance_scale : pyfloat) (name : string) (steps seed height width : Z)
    (num_images : Z) (w : World) :
  PyDict.get (compatible_schedulers (self w)) name = None ->
  generate_image prompt negative_prompt image mask guidance_scale name steps seed
    height width num_images w = (Raise (KeyError name), w).
Proof.
  intros H. unfold generate_image, bind.
  now rewrite (set_scheduler_unknown name w H).
Qed.

(** ** Metadata *)

(** C1, as stated, fails: two calls that differ in the supplied width both
    complete, and the metadata they return and the text they have embedded
    are the same, so the record is not the parameters of the call. *)
Lemma metadata_omits_width :
  width (Reference.req 512 1) <> width (Reference.req 768 1) /\
  PyDict.get (metadata_dict (X := Reference.externals)
                "a cat" "blurry" "7.5" "DDIMScheduler" 50 42) "width" = None /\
  exists imgs1 imgs2 info text w1 w2,
    generate (F := Reference.framework) (Reference.req 512 1) Reference.cpu =
    (Ret (imgs1, info), w1) /\
    generate (F := Reference.framework) (Reference.req 768 1) Reference.cpu =
    (Ret (imgs2, info), w2) /\
    saved (trace w1) = [(imgs1, text)] /\
    saved (trace w2) = [(imgs2, text)].
Proof.
  split; [discriminate |]. split; [reflexivity |].
  do 6 eexists. repeat split; vm_compute; reflexivity.
Qed.

(** C1, amended. Whenever [generate_image] returns, the metadata is the
    [json.dumps] text of the record with exactly the six entries prompt,
    negative_prompt, guidance_scale, scheduler, steps and seed, in this
    order, each holding the value supplied to the call; that one text is
    what [save_images] is given to embed in the returned images (module
    "inpainting", the configured output path), and it is the "inpainting"
    text entry of the [PngInfo] returned to the caller.  Image, mask, height,
    width and image count are not recorded. *)
Theorem metadata_records_six_parameters {X : Externals} {F : Framework}
    (prompt negative_prompt : string) (image mask : Image)
    (guidance_scale : pyfloat) (name : string) (steps seed height width : Z)
    (num_images : Z) (w w' : World) (output_images : list Image)
    (_metadata : PngInfo) :
  generate_image prompt negative_prompt image mask guidance_scale name steps seed
    height width num_images w = (Ret (output_images, _metadata), w') ->
  let text := json_dumps [ ("prompt", JString prompt);
                           ("negative_prompt", JString negative_prompt);
                           ("guidance_scale", JFloat guidance_scale);
                           ("scheduler", JString name);
                           ("steps", JInt steps);
                           ("seed", JInt seed) ] in
  _metadata = [("inpainting", text)] /\
  saved (trace w') = (saved (trace w) ++ [(output_images, text)])%list /\
  In (SaveImages output_images "inpainting" text (output_path (self w)))
     (skipn (length (trace w)) (trace w')).
Proof.
  intros Hrun text.
  destruct (PyDict.get (compatible_schedulers (self w)) name) as [cls |] eqn:Hcls.
  - destruct (seed_in_range seed) eqn:Hseed;
      [| rewrite (generate_image_bad_seed prompt negative_prompt image mask
                    guidance_scale name steps seed height width num_images cls w
                    Hcls Hseed) in Hrun; discriminate].
    rewrite (generate_image_run prompt negative_prompt image mask guidance_scale
               name steps seed height width num_images cls w Hcls Hseed) in Hrun.
    cbv zeta in Hrun.
    match type of Hrun with context [denoise ?p ?k] => destruct (denoise p k) end;
      [| discriminate].
    injection Hrun as <- <- <-. fold (metadata_dict prompt negative_prompt
      guidance_scale name steps seed) in text. repeat split.
    + cbn [trace]. repeat rewrite saved_app.
      destruct (device_is (device (self w)) "mps"); cbn [saved app];
        rewrite ?app_nil_r; reflexivity.
    + cbn [trace]. repeat rewrite <- app_assoc.
      rewrite skipn_app, skipn_all, Nat.sub_diag. cbn [skipn app].
      apply in_or_app. right. destruct (device_is (device (self w)) "mps");
        cbn; tauto.
  - rewrite (generate_image_unknown prompt negative_prompt image mask
               guidance_scale name steps seed height width num_images w Hcls) in Hrun.
    discriminate.
Qed.

Lemma metadata_records_six_parameters_witness :
  generate_image (F := Reference.framework) "a cat" "blurry" Reference.square
    Reference.hole "7.5" "DDIMScheduler" 50 42 512 512 1 Reference.cpu =
  (Ret ([Raster "RGB" 512 512 0],
        [("inpainting",
          json_dumps (Framework := Reference.framework)
            [ ("prompt", JString "a cat"); ("negative_prompt", JString "blurry");
              ("guidance_scale", JFloat (X := Reference.externals) "7.5"); ("scheduler", JString "DDIMScheduler");
              ("steps", JInt 50); ("seed", JInt 42) ])]),
   snd (generate_image (F := Reference.framework) "a cat" "blurry" Reference.square
          Reference.hole "7.5" "DDIMScheduler" 50 42 512 512 1 Reference.cpu)) /\
  saved (trace (snd (generate_image (F := Reference.framework) "a cat" "blurry"
                       Reference.square Reference.hole "7.5" "DDIMScheduler"
                       50 42 512 512 1 Reference.cpu))) =
  [([Raster "RGB" 512 512 0],
    json_dumps (Framework := Reference.framework)
      [ ("prompt", JString "a cat"); ("negative_prompt", JString "blurry");
        ("guidance_scale", JFloat (X := Reference.externals) "7.5"); ("scheduler", JString "DDIMScheduler");
        ("steps", JInt 50); ("seed", JInt 42) ])].
Proof.
  assert (generate_image (F := Reference.framework) "a cat" "blurry" Reference.square
            Reference.hole "7.5" "DDIMScheduler" 50 42 512 512 1 Reference.cpu =
          (Ret ([Raster "RGB" 512 512 0],
                [("inpainting",
                  json_dumps (Framework := Reference.framework)
                    [ ("prompt", JString "a cat"); ("negative_prompt", JString "blurry");
                      ("guidance_scale", JFloat (X := Reference.externals) "7.5");
                      ("scheduler", JString "DDIMScheduler");
                      ("steps", JInt 50); ("seed", JInt 42) ])]),
           snd (generate_image (F := Reference.framework) "a cat" "blurry"
                  Reference.square Reference.hole "7.5" "DDIMScheduler"
                  50 42 512 512 1 Reference.cpu))) as Hrun by reflexivity.
  split; [exact Hrun |].
  exact (proj1 (proj2 (metadata_records_six_parameters (F := Reference.framework)
                         _ _ _ _ _ _ _ _ _ _ _ _ _ _ _ Hrun))).
Defined.

(** ** The form *)

(** The scheduler list is always built: [index] and [pop] are only reached
    when the name is in the list, where they cannot fail. *)
Lemma available_schedulers_run {X : Externals} {F : Framework}
    (self : Inpainting) (w : World) :
  let keys := PyDict.keys (compatible_schedulers self) in
  if PyList.contains Euler keys then
    exists l1 l2, keys = (l1 ++ Euler :: l2)%list /\ ~ In Euler l1 /\
                  available_schedulers self w = (Ret (Euler :: l1 ++ l2)%list, w)
  else available_schedulers self w = (Ret keys, w).
Proof.
  intros keys. unfold available_schedulers. fold keys. clearbody keys.
  destruct (PyList.contains Euler keys) eqn:E; [| reflexivity].
  apply contains_In in E.
  destruct (index_first Euler keys E) as [l1 [l2 [Hk [Hn Hi]]]].
  exists l1, l2. repeat split; try assumption.
  unfold bind. rewrite Hi. unfold ret at 1. subst keys.
  rewrite pop_middle. reflexivity.
Qed.

Lemma available_schedulers_returns {X : Externals} {F : Framework}
    (self : Inpainting) (w : World) :
  exists l, available_schedulers self w = (Ret l, w).
Proof.
  pose proof (available_schedulers_run self w) as H. cbv zeta in H.
  destruct (PyList.contains Euler (PyDict.keys (compatible_schedulers self))).
  - destruct H as [l1 [l2 [_ [_ H]]]]. eauto.
  - eauto.
Qed.

(** C9. The list offered by the scheduler select box is a permutation of the
    names in [compatible_schedulers]; when "EulerAncestralDiscreteScheduler"
    is among them it is moved to the front, the other names keeping their
    order, and it is what the select box yields while nothing is picked;
    otherwise the list is the names in their order. *)
Theorem scheduler_list_order {X : Externals} {F : Framework}
    (self : Inpainting) (w : World) :
  let keys := PyDict.keys (compatible_schedulers self) in
  exists l,
    available_schedulers self w = (Ret l, w) /\
    Permutation keys l /\
    if PyList.contains Euler keys then
      (exists l1 l2, keys = (l1 ++ Euler :: l2)%list /\ ~ In Euler l1 /\
                     l = (Euler :: l1 ++ l2)%list) /\
      selectbox l 0 None = Some Euler
    else l = keys.
Proof.
  intros keys. pose proof (available_schedulers_run self w) as H.
  cbv zeta in H. fold keys in H.
  destruct (PyList.contains Euler keys).
  - destruct H as [l1 [l2 [Hk [Hn H]]]].
    exists (Euler :: l1 ++ l2)%list. split; [exact H |]. split.
    + rewrite Hk. symmetry. apply Permutation_middle.
    + split; [| reflexivity]. exists l1, l2. auto.
  - exists keys. auto.
Qed.

(** [app] when every operand of the guard holds: the mask is cut from the
    canvas and resized, [generate_image] is called, and its outcome decides
    the outcome of [app]. *)
Lemma app_generates {X : Externals} {F : Framework} (ui : Widgets) (w : World)
    (uploaded_file : Blob) (im : Image) (px : nat) (o : string)
    (objs l : list string) (name : string) :
  inpainting_uploaded_file ui = Some uploaded_file ->
  Image_open uploaded_file = Ret im ->
  raster (inpainting_canvas ui) = Some px ->
  objects (inpainting_canvas ui) = Some (o :: objs) ->
  inpainting_submit ui = true ->
  available_schedulers (self w) w = (Ret l, w) ->
  selectbox l 0 (inpainting_scheduler ui) = Some name ->
  let pil_image := Convert "RGB" im in
  let img_height := fst (size pil_image) in
  let img_width := snd (size pil_image) in
  let mask_pil :=
    Resize img_width img_height (Some LANCZOS)
      (Convert "RGB"
         (Fromarray {| nd_rows := 768; nd_cols := 768; nd_data := px |} 3)) in
  app ui w =
  match generate_image (inpainting_prompt ui) (inpainting_negative_prompt ui)
          pil_image mask_pil (inpainting_guidance_scale ui) name
          (value (inpainting_steps ui)) (value (inpainting_seed ui)) img_height img_width
          (value (inpainting_num_images ui)) w with
  | (Ret (output_images, metadata), w') =>
      (Ret tt, {| self := self w';
                  trace := (trace w' ++ [DisplayAndDownload output_images metadata])%list |})
  | (Raise e, w') => (Raise e, w')
  end.
Proof.
  intros Hfile Hopen Hraster Hobjs Hsubmit Hav Hsel pil_image img_height img_width mask_pil.
  unfold app, bind, get_self. rewrite Hav, Hfile, Hsel.
  unfold lift. rewrite Hopen. fold pil_image.
  subst img_height img_width mask_pil.
  destruct (size pil_image) as [h wd] eqn:Hsize. cbn [fst snd].
  unfold submit_guard, st_canvas, bind. rewrite Hraster, Hobjs, Hsubmit.
  cbn [image_data json_data Image_bool ret length].
  replace (0 <? Z.of_nat (S (length objs))) with true
    by (symmetry; apply Z.ltb_lt; lia).
  unfold ret at 1.
  match goal with |- context [generate_image ?a ?b ?c ?d ?e ?f ?g ?h ?i ?j ?k ?w] =>
    destruct (generate_image a b c d e f g h i j k w) as [[[imgs md] | e'] w'] end;
    reflexivity.
Qed.

(** [app] when some operand of the guard fails, with a canvas that reports
    its objects: nothing happens at all. *)
Lemma app_quiet {X : Externals} {F : Framework} (ui : Widgets) (w : World)
    (objs : list string) :
  objects (inpainting_canvas ui) = Some objs ->
  inpainting_uploaded_file ui = None \/
  raster (inpainting_canvas ui) = None \/
  objs = [] \/
  inpainting_submit ui = false ->
  snd (app ui w) = w.
Proof.
  intros Hobjs Hcase.
  destruct (available_schedulers_returns (self w) w) as [l Hav].
  unfold app, bind, get_self. rewrite Hav.
  destruct (inpainting_uploaded_file ui) as [file |] eqn:Hfile; [| reflexivity].
  unfold lift. destruct (Image_open file) as [im | e]; [| reflexivity].
  destruct (size (Convert "RGB" im)) as [h wd].
  unfold submit_guard, st_canvas, bind. rewrite Hobjs.
  cbn [image_data json_data Image_bool ret].
  destruct (raster (inpainting_canvas ui)) as [px |] eqn:Hraster; [| reflexivity].
  unfold ret at 1.
  destruct objs as [| o objs'].
  - reflexivity.
  - replace (0 <? Z.of_nat (length (o :: objs'))) with true
      by (symmetry; apply Z.ltb_lt; cbn [length]; lia).
    destruct (inpainting_submit ui) eqn:Hsubmit; [| reflexivity].
    destruct Hcase as [H | [H | [H | H]]]; discriminate.
Qed.

(** A canvas without [json_data] either stops the guard early or makes it
    raise [TypeError]; nothing else happens. *)
Lemma app_no_json_data {X : Externals} {F : Framework} (ui : Widgets) (w : World) :
  objects (inpainting_canvas ui) = None ->
  snd (app ui w) = w.
Proof.
  intros Hobjs.
  destruct (available_schedulers_returns (self w) w) as [l Hav].
  unfold app, bind, get_self. rewrite Hav.
  destruct (inpainting_uploaded_file ui) as [file |]; [| reflexivity].
  unfold lift. destruct (Image_open file) as [im | e]; [| reflexivity].
  destruct (size (Convert "RGB" im)) as [h wd].
  unfold submit_guard, st_canvas, bind. rewrite Hobjs.
  cbn [image_data json_data Image_bool ret].
  destruct (raster (inpainting_canvas ui)); reflexivity.
Qed.

(** C10. Whatever [app] does to the instance or to the outside world (a
    scheduler swap, a pipeline call, a save, a display), it does only when
    the Generate button is pressed, the canvas has image data and at least
    one drawn object (and a file is uploaded); with zero drawn objects [app]
    changes nothing: no pipeline call, nothing saved. *)
Theorem empty_mask_guard {X : Externals} {F : Framework} (ui : Widgets) (w : World) :
  (snd (app ui w) <> w ->
   inpainting_submit ui = true /\
   raster (inpainting_canvas ui) <> None /\
   (exists o objs, objects (inpainting_canvas ui) = Some (o :: objs)) /\
   inpainting_uploaded_file ui <> None) /\
  (objects (inpainting_canvas ui) = Some [] ->
   snd (app ui w) = w /\
   pipeline_calls (trace (snd (app ui w))) = pipeline_calls (trace w) /\
   saved (trace (snd (app ui w))) = saved (trace w)).
Proof.
  split.
  - intros Hchanged.
    destruct (objects (inpainting_canvas ui)) as [objs |] eqn:Hobjs.
    + destruct (inpainting_submit ui) eqn:Hsubmit;
        [| exfalso; apply Hchanged, (app_quiet ui w objs Hobjs); auto].
      destruct (raster (inpainting_canvas ui)) as [px |] eqn:Hraster;
        [| exfalso; apply Hchanged, (app_quiet ui w objs Hobjs); auto].
      destruct objs as [| o objs'];
        [exfalso; apply Hchanged, (app_quiet ui w [] Hobjs); auto |].
      destruct (inpainting_uploaded_file ui) as [file |] eqn:Hfile;
        [| exfalso; apply Hchanged, (app_quiet ui w (o :: objs') Hobjs); auto].
      repeat split; try discriminate. eauto.
    + exfalso. apply Hchanged, app_no_json_data, Hobjs.
  - intros Hempty.
    assert (snd (app ui w) = w) as Hsame by (apply (app_quiet ui w [] Hempty); auto).
    now rewrite Hsame.
Qed.

Lemma empty_mask_guard_witness :
  (snd (app (F := Reference.framework)
          (Reference.form (Some Reference.square) Reference.stroke true)
          Reference.cpu) <> Reference.cpu /\
   inpainting_submit (Reference.form (Some Reference.square) Reference.stroke true)
   = true) /\
  (objects (inpainting_canvas
              (Reference.form (Some Reference.square) Reference.blank true))
   = Some [] /\
   snd (app (F := Reference.framework)
          (Reference.form (Some Reference.square) Reference.blank true)
          Reference.cpu) = Reference.cpu).
Proof.
  assert (snd (app (F := Reference.framework)
                 (Reference.form (Some Reference.square) Reference.stroke true)
                 Reference.cpu) <> Reference.cpu) as Hchanged.
  { intros H. apply (f_equal (fun w => length (trace w))) in H.
    vm_compute in H. discriminate H. }
  split.
  - split; [exact Hchanged |].
    exact (proj1 (proj1 (empty_mask_guard (F := Reference.framework)
                           (Reference.form (Some Reference.square) Reference.stroke true)
                           Reference.cpu) Hchanged)).
  - split; [reflexivity |].
    exact (proj1 (proj2 (empty_mask_guard (F := Reference.framework)
                           (Reference.form (Some Reference.square) Reference.blank true)
                           Reference.cpu) eq_refl)).
Defined.

(** ** The mask *)

(** Whenever [app] reaches the pipeline, the image it passes is the upload
    and the mask has the upload's height as its width and the upload's width
    as its height: [pil_image.size] is (width, height), the code unpacks it
    as [img_height, img_width] and hands [resize] the pair
    [(img_width, img_height)]. *)
Lemma app_mask_size {X : Externals} {F : Framework} (ui : Widgets) (w : World)
    (uploaded_file : Blob) (im : Image) (px : nat) (o : string)
    (objs l : list string) (name : string) :
  inpainting_uploaded_file ui = Some uploaded_file ->
  Image_open uploaded_file = Ret im ->
  raster (inpainting_canvas ui) = Some px ->
  objects (inpainting_canvas ui) = Some (o :: objs) ->
  inpainting_submit ui = true ->
  available_schedulers (self w) w = (Ret l, w) ->
  selectbox l 0 (inpainting_scheduler ui) = Some name ->
  PyList.contains name (PyDict.keys (compatible_schedulers (self w))) = true ->
  exists p kw,
    pipeline_calls (trace (snd (app ui w))) =
    (pipeline_calls (trace w) ++ [(p, kw)])%list /\
    kw_image kw = Convert "RGB" im /\
    size (kw_image kw) = size im /\
    size (kw_mask_image kw) = (snd (size im), fst (size im)).
Proof.
  intros Hfile Hopen Hraster Hobjs Hsubmit Hav Hsel Hin.
  destruct (known_name _ _ Hin) as [cls Hcls].
  rewrite (app_generates ui w uploaded_file im px o objs l name
             Hfile Hopen Hraster Hobjs Hsubmit Hav Hsel).
  cbv zeta.
  match goal with |- context [generate_image ?a ?b ?c ?d ?e ?f ?g ?h ?i ?j ?k ?w] =>
    pose proof (generate_image_calls a b c d e f g h i j k cls w Hcls
                  (widget_seed_accepted _)) as Hcalls;
    destruct (generate_image a b c d e f g h i j k w) as [[[imgs md] | e'] w']
  end; cbn [snd trace] in *; rewrite ?pipeline_calls_app, Hcalls;
    cbn [pipeline_calls]; rewrite ?app_nil_r;
    eexists; eexists; (split; [reflexivity |]); cbn; auto.
Qed.

(** C2, at an upload of 640 by 480 pixels: the pipeline gets the 640 by 480
    image together with a mask of 480 by 640 pixels. *)
Theorem mask_transposed_at_640x480 :
  size Reference.photo = (640, 480) /\
  exists p kw,
    pipeline_calls
      (trace (snd (app (F := Reference.framework)
                     (Reference.form (Some Reference.photo) Reference.stroke true)
                     Reference.cpu))) = [(p, kw)] /\
    size (kw_image kw) = (640, 480) /\
    size (kw_mask_image kw) = (480, 640).
Proof.
  split; [reflexivity |].
  destruct (app_mask_size (F := Reference.framework)
              (Reference.form (Some Reference.photo) Reference.stroke true)
              Reference.cpu Reference.photo Reference.photo 1%nat "path" []
              (Euler :: "PNDMScheduler" :: "DDIMScheduler" :: "LMSDiscreteScheduler" :: nil)
              Euler eq_refl eq_refl eq_refl eq_refl eq_refl eq_refl eq_refl eq_refl)
    as [p [kw [Hcalls [_ [Himg Hmask]]]]].
  exists p, kw. repeat split; assumption.
Qed.

(** ** What the operations leave alone *)

Lemma same_but_scheduler_refl {X : Externals} (a : Inpainting) :
  same_but_scheduler a a.
Proof. unfold same_but_scheduler. repeat split. Qed.

Lemma same_but_scheduler_trans {X : Externals} (a b c : Inpainting) :
  same_but_scheduler a b -> same_but_scheduler b c -> same_but_scheduler a c.
Proof.
  unfold same_but_scheduler. intros Hab Hbc.
  repeat match goal with H : _ /\ _ |- _ => destruct H end.
  repeat split; congruence.
Qed.

Lemma install_frame {X : Externals} {F : Framework} (s : Scheduler) (w : World) :
  same_but_scheduler (self w) (self (install s w)).
Proof. unfold same_but_scheduler. repeat split. Qed.

Lemma set_scheduler_frame {X : Externals} {F : Framework} (name : string) (w : World) :
  same_but_scheduler (self w) (self (snd (_set_scheduler name w))).
Proof.
  destruct (PyDict.get (compatible_schedulers (self w)) name) as [cls |] eqn:E.
  - rewrite (set_scheduler_known name cls w E). apply install_frame.
  - rewrite (set_scheduler_unknown name w E). apply same_but_scheduler_refl.
Qed.

Lemma generate_image_frame {X : Externals} {F : Framework}
    (prompt negative_prompt : string) (image mask : Image)
    (guidance_scale : pyfloat) (name : string) (steps seed height width : Z)
    (num_images : Z) (w : World) :
  same_but_scheduler (self w)
    (self (snd (generate_image prompt negative_prompt image mask guidance_scale
                  name steps seed height width num_images w))).
Proof.
  destruct (PyDict.get (compatible_schedulers (self w)) name) as [cls |] eqn:E.
  - destruct (seed_in_range seed) eqn:Hseed.
    + rewrite (generate_image_run prompt negative_prompt image mask guidance_scale
                 name steps seed height width num_images cls w E Hseed).
      cbv zeta.
      match goal with |- context [denoise ?p ?k] => destruct (denoise p k) end;
        cbn [snd self]; apply install_frame.
    + rewrite (generate_image_bad_seed prompt negative_prompt image mask
                 guidance_scale name steps seed height width num_images cls w
                 E Hseed).
      cbn [snd self]. apply install_frame.
  - rewrite (generate_image_unknown prompt negative_prompt image mask
               guidance_scale name steps seed height width num_images w E).
    apply same_but_scheduler_refl.
Qed.

Lemma app_frame {X : Externals} {F : Framework} (ui : Widgets) (w : World) :
  same_but_scheduler (self w) (self (snd (app ui w))).
Proof.
  destruct (objects (inpainting_canvas ui)) as [objs |] eqn:Hobjs;
    [| rewrite (app_no_json_data ui w Hobjs); apply same_but_scheduler_refl].
  destruct (inpainting_uploaded_file ui) as [file |] eqn:Hfile;
    [| rewrite (app_quiet ui w objs Hobjs); auto using same_but_scheduler_refl].
  destruct (raster (inpainting_canvas ui)) as [px |] eqn:Hraster;
    [| rewrite (app_quiet ui w objs Hobjs); auto using same_but_scheduler_refl].
  destruct objs as [| o objs'];
    [rewrite (app_quiet ui w [] Hobjs); auto using same_but_scheduler_refl |].
  destruct (inpainting_submit ui) eqn:Hsubmit;
    [| rewrite (app_quiet ui w (o :: objs') Hobjs); auto using same_but_scheduler_refl].
  destruct (available_schedulers_returns (self w) w) as [l Hav].
  destruct (Image_open file) as [im | e] eqn:Hopen.
  - destruct (selectbox l 0 (inpainting_scheduler ui)) as [name |] eqn:Hsel.
    + rewrite (app_generates ui w file im px o objs' l name
                 Hfile Hopen Hraster Hobjs Hsubmit Hav Hsel).
      cbv zeta.
      match goal with |- context [generate_image ?a ?b ?c ?d ?e ?f ?g ?h ?i ?j ?k ?w] =>
        pose proof (generate_image_frame a b c d e f g h i j k w) as Hframe;
        destruct (generate_image a b c d e f g h i j k w) as [[[imgs md] | e'] w']
      end; exact Hframe.
    + unfold app, bind, get_self, lift. rewrite Hav, Hfile, Hopen, Hsel.
      destruct (size (Convert "RGB" im)) as [h wd].
      unfold submit_guard, st_canvas, bind. rewrite Hraster, Hobjs, Hsubmit.
      cbn [image_data json_data Image_bool ret length].
      replace (0 <? Z.of_nat (S (length objs'))) with true
        by (symmetry; apply Z.ltb_lt; lia).
      cbn. apply same_but_scheduler_refl.
  - unfold app, bind, get_self, lift. rewrite Hav, Hfile, Hopen.
    apply same_but_scheduler_refl.
Qed.

Lemma after_frame {X : Externals} {F : Framework} (o : operation) (w : World) :
  same_but_scheduler (self w) (self (after o w)).
Proof.
  destruct o as [name | r | ui |]; cbn [after].
  - apply set_scheduler_frame.
  - apply generate_image_frame.
  - apply app_frame.
  - apply same_but_scheduler_refl.
Qed.

Lemma reachable_frame {X : Externals} {F : Framework} (w0 w : World) :
  reachable w0 w -> same_but_scheduler (self w0) (self w).
Proof.
  induction 1 as [| w o Hreach IH].
  - apply same_but_scheduler_refl.
  - eapply same_but_scheduler_trans; [exact IH | apply after_frame].
Qed.

(** ** Construction *)

(** What a constructed instance holds. *)
Lemma post_init_returns {X : Externals} {F : Framework}
    (m d o : option string) (tr tr0 : list event) (self0 : Inpainting) :
  __post_init__ m d o tr = (Ret self0, tr0) ->
  exists wts s0,
    from_pretrained m (if device_is d "cuda" then float16 else float32) =
    Ret (wts, s0) /\
    model self0 = m /\ device self0 = d /\ output_path self0 = o /\
    _compatible_schedulers self0 = compatibles s0 /\
    scheduler_config self0 = config s0 /\
    compatible_schedulers self0 =
    PyDict.comprehension class_name (compatibles s0) /\
    current_scheduler self0 = s0.
Proof.
  unfold __post_init__, bind, lift.
  destruct (from_pretrained m (if device_is d "cuda" then float16 else float32))
    as [[wts s0] | e]; [| discriminate].
  destruct (to_device wts d) as [wts' | e]; [| discriminate].
  intros H. exists wts, s0. split; [reflexivity |].
  destruct (device_is d "mps").
  - unfold download_image, bind, emit0, emit, lift, ret in H.
    repeat match type of H with
           | context [match ?x with _ => _ end] =>
               let E := fresh "E" in destruct x eqn:E; try discriminate
           end;
      injection H as <- <-; repeat split.
  - injection H as <- <-. repeat split.
Qed.

(** The names on offer are the class names of the schedulers the loaded
    pipeline reports as compatible, each once. *)
Lemma selectable_names {X : Externals} {F : Framework}
    (m d o : option string) (tr tr0 : list event) (self0 : Inpainting) :
  __post_init__ m d o tr = (Ret self0, tr0) ->
  NoDup (PyDict.keys (compatible_schedulers self0)) /\
  forall n, In n (PyDict.keys (compatible_schedulers self0)) <->
            exists cls, In cls (_compatible_schedulers self0) /\ class_name cls = n.
Proof.
  intros Hnew.
  destruct (post_init_returns m d o tr tr0 self0 Hnew)
    as [wts [s0 [_ [_ [_ [_ [Hlist [_ [Hdict _]]]]]]]]].
  rewrite Hdict, Hlist.
  destruct (comprehension_keys class_name (compatibles s0)) as [Hnd Hin].
  split; [exact Hnd |]. intros n. rewrite Hin, in_map_iff.
  split; intros [cls [H1 H2]]; exists cls; auto.
Qed.

Example reference_cpu_constructed :
  __post_init__ (F := Reference.framework)
    (Some "sd-inpainting") (Some "cpu") (Some "out") [] =
  (Ret (self Reference.cpu), trace Reference.cpu).
Proof. reflexivity. Qed.

Example reference_mps_constructed :
  __post_init__ (F := Reference.framework)
    (Some "sd-inpainting") (Some "mps") (Some "out") [] =
  (Ret (self Reference.mps), trace Reference.mps).
Proof. reflexivity. Qed.

(** C6. The fields [model], [device] and [output_path] of a constructed
    instance are the constructor's arguments, and they still are after any
    sequence of [_set_scheduler], [generate_image], [app] and [__str__]
    calls, whether these return or raise. *)
Theorem configuration_immutable {X : Externals} {F : Framework}
    (m d o : option string) (tr tr0 : list event) (self0 : Inpainting) (w : World) :
  __post_init__ m d o tr = (Ret self0, tr0) ->
  reachable {| self := self0; trace := tr0 |} w ->
  model (self w) = m /\ device (self w) = d /\ output_path (self w) = o.
Proof.
  intros Hnew Hreach.
  destruct (post_init_returns m d o tr tr0 self0 Hnew)
    as [wts [s0 [_ [Hm [Hd [Ho _]]]]]].
  destruct (reachable_frame _ _ Hreach) as [Hm' [Hd' [Ho' _]]].
  cbn [self] in Hm', Hd', Ho'. repeat split; congruence.
Qed.

Lemma configuration_immutable_witness :
  let w := after (F := Reference.framework)
             (call_app (Reference.form (Some Reference.photo) Reference.stroke true))
             (after (F := Reference.framework) call_str
                (after (F := Reference.framework)
                   (call_generate_image (Reference.req 512 2))
                   (after (F := Reference.framework)
                      (call_set_scheduler "LMSDiscreteScheduler") Reference.cpu))) in
  __post_init__ (F := Reference.framework)
    (Some "sd-inpainting") (Some "cpu") (Some "out") [] =
  (Ret (self Reference.cpu), trace Reference.cpu) /\
  model (self w) = Some "sd-inpainting" /\
  device (self w) = Some "cpu" /\
  output_path (self w) = Some "out".
Proof.
  intros w. split; [reflexivity |].
  apply (configuration_immutable (F := Reference.framework)
           (Some "sd-inpainting") (Some "cpu") (Some "out") []
           (trace Reference.cpu) (self Reference.cpu) w).
  - reflexivity.
  - subst w. repeat apply reach_step. apply reach_start.
Defined.

(** C5. The dict of selectable schedulers and the scheduler configuration
    of an instance are built by the constructor from the scheduler the
    loaded pipeline comes with (its [compatibles] and its [config]) and are
    the same after any sequence of operations.  Every [generate_image] call
    with a name of that dict installs the named class instantiated from the
    construction-time configuration, and leaves it installed; when the seed
    is accepted the call goes on to make one pipeline call, on a pipeline
    whose scheduler already is that one, and when the seed is not accepted
    it makes none.  A call with another name makes no pipeline call.  In
    every case the instance afterwards differs from the one before in
    nothing but [pipeline.scheduler]. *)
Theorem scheduler_lifecycle {X : Externals} {F : Framework}
    (m d o : option string) (tr tr0 : list event) (self0 : Inpainting) (w : World)
    (prompt negative_prompt : string) (image mask : Image)
    (guidance_scale : pyfloat) (name : string) (steps seed height width : Z)
    (num_images : Z) :
  __post_init__ m d o tr = (Ret self0, tr0) ->
  reachable {| self := self0; trace := tr0 |} w ->
  exists wts s0,
    from_pretrained m (if device_is d "cuda" then float16 else float32) =
    Ret (wts, s0) /\
    compatible_schedulers (self w) =
    PyDict.comprehension class_name (compatibles s0) /\
    scheduler_config (self w) = config s0 /\
    let w' := snd (generate_image prompt negative_prompt image mask guidance_scale
                     name steps seed height width num_images w) in
    match PyDict.get (PyDict.comprehension class_name (compatibles s0)) name with
    | Some cls =>
        current_scheduler (self w') = from_config cls (config s0) /\
        if seed_in_range seed then
          exists p kw,
            pipeline_calls (trace w') = (pipeline_calls (trace w) ++ [(p, kw)])%list /\
            scheduler p = from_config cls (config s0)
        else pipeline_calls (trace w') = pipeline_calls (trace w)
    | None => pipeline_calls (trace w') = pipeline_calls (trace w)
    end /\
    same_but_scheduler (self w) (self w').
Proof.
  intros Hnew Hreach.
  destruct (post_init_returns m d o tr tr0 self0 Hnew)
    as [wts [s0 [Hload [_ [_ [_ [_ [Hcfg [Hdict _]]]]]]]]].
  destruct (reachable_frame _ _ Hreach) as [_ [_ [_ [_ [_ [_ [_ [_ [Hcfg' Hdict']]]]]]]]].
  cbn [self] in Hcfg', Hdict'.
  exists wts, s0. split; [exact Hload |].
  split; [congruence |]. split; [congruence |].
  intros w'. split; [| apply generate_image_frame].
  rewrite <- Hdict, Hdict'.
  destruct (PyDict.get (compatible_schedulers (self w)) name) as [cls |] eqn:Hcls.
  - destruct (seed_in_range seed) eqn:Hseed.
    + split.
      * subst w'.
        rewrite (generate_image_run prompt negative_prompt image mask guidance_scale
                   name steps seed height width num_images cls w Hcls Hseed).
        cbv zeta.
        match goal with |- context [denoise ?p ?k] => destruct (denoise p k) end;
          cbn; congruence.
      * eexists. eexists.
        split; [apply generate_image_calls; [exact Hcls | exact Hseed] |].
        cbn; congruence.
    + subst w'.
      rewrite (generate_image_bad_seed prompt negative_prompt image mask
                 guidance_scale name steps seed height width num_images cls w
                 Hcls Hseed).
      cbn [snd self trace]. split; [cbn; congruence |].
      rewrite pipeline_calls_app. cbn. apply app_nil_r.
  - subst w'.
    now rewrite (generate_image_unknown prompt negative_prompt image mask
                   guidance_scale name steps seed height width num_images w Hcls).
Qed.

Lemma scheduler_lifecycle_witness :
  let w := after (F := Reference.framework)
             (call_set_scheduler "LMSDiscreteScheduler") Reference.cpu in
  let w' := snd (generate_image (F := Reference.framework) "a cat" "blurry"
                   Reference.square Reference.hole "7.5" "DDIMScheduler"
                   50 42 512 512 1 w) in
  let w'' := snd (generate_image (F := Reference.framework) "a cat" "blurry"
                    Reference.square Reference.hole "7.5" "DDIMScheduler"
                    50 (2 ^ 64) 512 512 1 w) in
  __post_init__ (F := Reference.framework)
    (Some "sd-inpainting") (Some "cpu") (Some "out") [] =
  (Ret (self Reference.cpu), trace Reference.cpu) /\
  current_scheduler (self w) = ("LMSDiscreteScheduler", 1000%nat) /\
  (current_scheduler (self w') = ("DDIMScheduler", 1000%nat) /\
   exists p kw,
     pipeline_calls (trace w') = [(p, kw)] /\
     scheduler p = ("DDIMScheduler", 1000%nat)) /\
  (current_scheduler (self w'') = ("DDIMScheduler", 1000%nat) /\
   pipeline_calls (trace w'') = []).
Proof.
  intros w w' w''. split; [reflexivity |]. split; [reflexivity |].
  assert (reachable Reference.cpu w) as Hreach
    by exact (reach_step Reference.cpu Reference.cpu
                (call_set_scheduler "LMSDiscreteScheduler")
                (reach_start Reference.cpu)).
  split.
  - destruct (scheduler_lifecycle (F := Reference.framework)
                (Some "sd-inpainting") (Some "cpu") (Some "out") []
                (trace Reference.cpu) (self Reference.cpu) w
                "a cat" "blurry" Reference.square Reference.hole "7.5" "DDIMScheduler"
                50 42 512 512 1 eq_refl Hreach)
      as [wts [s0 [Hload [_ [_ [Hcall _]]]]]].
    injection Hload as _ <-. exact Hcall.
  - destruct (scheduler_lifecycle (F := Reference.framework)
                (Some "sd-inpainting") (Some "cpu") (Some "out") []
                (trace Reference.cpu) (self Reference.cpu) w
                "a cat" "blurry" Reference.square Reference.hole "7.5" "DDIMScheduler"
                50 (2 ^ 64) 512 512 1 eq_refl Hreach)
      as [wts [s0 [Hload [_ [_ [Hcall _]]]]]].
    injection Hload as _ <-. exact Hcall.
Defined.

(** C7. Nothing in the module catches or replaces an exception.  A name
    that is not a key of [compatible_schedulers] makes [_set_scheduler]
    raise [KeyError], and [generate_image] raise that same [KeyError], with
    the instance and the outside world untouched: no pipeline call, nothing
    saved.  With a known name, a seed that [manual_seed] does not accept
    makes [generate_image] raise its [ValueError] before the pipeline is
    called; otherwise the pipeline is called, and an exception of the
    pipeline leaves [generate_image] as it is, before anything is saved.  An
    exception of [Image.open] leaves [app] as it is; and when [app] calls
    [generate_image], an exception of that call leaves [app] as it is. *)
Theorem failures_propagate {X : Externals} {F : Framework} (w : World) :
  (forall name,
     PyList.contains name (PyDict.keys (compatible_schedulers (self w))) = false ->
     _set_scheduler name w = (Raise (KeyError name), w) /\
     forall prompt negative_prompt image mask guidance_scale steps seed height width
            num_images,
       generate_image prompt negative_prompt image mask guidance_scale name steps
         seed height width num_images w = (Raise (KeyError name), w)) /\
  (forall r,
     PyList.contains (scheduler_name r)
       (PyDict.keys (compatible_schedulers (self w))) = true ->
     if seed_in_range (seed r) then
       exists p kw,
         pipeline_calls (trace (snd (generate r w))) =
         (pipeline_calls (trace w) ++ [(p, kw)])%list /\
         forall e, denoise p kw = Raise e ->
                   fst (generate r w) = Raise e /\
                   saved (trace (snd (generate r w))) = saved (trace w)
     else
       fst (generate r w) = Raise (ValueError "Overflow when unpacking long long") /\
       pipeline_calls (trace (snd (generate r w))) = pipeline_calls (trace w) /\
       saved (trace (snd (generate r w))) = saved (trace w)) /\
  (forall ui uploaded_file e,
     inpainting_uploaded_file ui = Some uploaded_file ->
     Image_open uploaded_file = Raise e ->
     app ui w = (Raise e, w)) /\
  (forall ui uploaded_file im px o objs l name,
     inpainting_uploaded_file ui = Some uploaded_file ->
     Image_open uploaded_file = Ret im ->
     raster (inpainting_canvas ui) = Some px ->
     objects (inpainting_canvas ui) = Some (o :: objs) ->
     inpainting_submit ui = true ->
     available_schedulers (self w) w = (Ret l, w) ->
     selectbox l 0 (inpainting_scheduler ui) = Some name ->
     fst (app ui w) =
     match fst (generate_image (inpainting_prompt ui) (inpainting_negative_prompt ui)
                  (Convert "RGB" im)
                  (Resize (snd (size im)) (fst (size im)) (Some LANCZOS)
                     (Convert "RGB"
                        (Fromarray {| nd_rows := 768; nd_cols := 768; nd_data := px |} 3)))
                  (inpainting_guidance_scale ui) name (value (inpainting_steps ui))
                  (value (inpainting_seed ui)) (fst (size im)) (snd (size im))
                  (value (inpainting_num_images ui)) w) with
     | Ret _ => Ret tt
     | Raise e => Raise e
     end).
Proof.
  split; [| split; [| split]].
  - intros name Hname. split.
    + apply set_scheduler_unknown, unknown_name, Hname.
    + intros. apply generate_image_unknown, unknown_name, Hname.
  - intros r Hin. destruct (known_name _ _ Hin) as [cls Hcls].
    destruct (seed_in_range (seed r)) eqn:Hseed.
    + eexists. eexists.
      split; [apply generate_image_calls; [exact Hcls | exact Hseed] |].
      intros e He. unfold generate.
      rewrite (generate_image_run (prompt r) (negative_prompt r) (image r) (mask r)
                 (guidance_scale r) (scheduler_name r) (steps r) (seed r) (height r)
                 (width r) (num_images r) cls w Hcls Hseed).
      cbv zeta. rewrite He. cbn [fst snd trace]. split; [reflexivity |].
      repeat rewrite saved_app.
      destruct (device_is (device (self w)) "mps"); cbn [saved app];
        now rewrite ?app_nil_r.
    + exact (generate_image_no_call (prompt r) (negative_prompt r) (image r)
               (mask r) (guidance_scale r) (scheduler_name r) (steps r) (seed r)
               (height r) (width r) (num_images r) cls w Hcls Hseed).
  - intros ui file e Hfile Hopen.
    destruct (available_schedulers_returns (self w) w) as [l Hav].
    unfold app, bind, get_self, lift. now rewrite Hav, Hfile, Hopen.
  - intros ui file im px o objs l name Hfile Hopen Hraster Hobjs Hsubmit Hav Hsel.
    rewrite (app_generates ui w file im px o objs l name
               Hfile Hopen Hraster Hobjs Hsubmit Hav Hsel).
    cbv zeta. cbn [size].
    match goal with |- context [generate_image ?a ?b ?c ?d ?e ?f ?g ?h ?i ?j ?k ?w] =>
      destruct (generate_image a b c d e f g h i j k w) as [[[imgs md] | e'] w']
    end; reflexivity.
Qed.

Lemma failures_propagate_witness :
  PyList.contains "KarrasScheduler"
    (PyDict.keys (compatible_schedulers (self Reference.cpu))) = false /\
  _set_scheduler (F := Reference.framework) "KarrasScheduler" Reference.cpu =
  (Raise (KeyError "KarrasScheduler"), Reference.cpu) /\
  generate_image (F := Reference.framework) "a cat" "blurry" Reference.square
    Reference.hole "7.5" "KarrasScheduler" 50 42 512 512 1 Reference.cpu =
  (Raise (KeyError "KarrasScheduler"), Reference.cpu) /\
  fst (generate (F := Reference.framework) (Reference.req 100 1) Reference.cpu) =
  Raise (FrameworkError "height and width have to be divisible by 8") /\
  saved (trace (snd (generate (F := Reference.framework) (Reference.req 100 1)
                       Reference.cpu))) = [] /\
  fst (generate (F := Reference.framework)
         (@Build_request Reference.externals "a cat" "blurry" Reference.square
            Reference.hole "7.5" "DDIMScheduler" 50 (2 ^ 64) 512 512 1)
         Reference.cpu) =
  Raise (ValueError "Overflow when unpacking long long") /\
  app (F := Reference.framework)
    (Reference.form (Some Reference.garbage) Reference.stroke true) Reference.cpu =
  (Raise (FrameworkError "cannot identify image file"), Reference.cpu) /\
  fst (app (F := Reference.framework)
         (Reference.form (Some Reference.thumbnail) Reference.stroke true)
         Reference.cpu) =
  Raise (FrameworkError "height and width have to be divisible by 8").
Proof.
  destruct (failures_propagate (F := Reference.framework) Reference.cpu)
    as [Hkey [Hpipe [Hopen Happ]]].
  split; [reflexivity |].
  split; [exact (proj1 (Hkey "KarrasScheduler" eq_refl)) |].
  split; [exact (proj2 (Hkey "KarrasScheduler" eq_refl) "a cat" "blurry"
                   Reference.square Reference.hole "7.5" 50 42 512 512 1) |].
  destruct (Hpipe (Reference.req 100 1) eq_refl : exists p kw, _)
    as [p [kw [Hcalls Hraise]]].
  vm_compute in Hcalls. injection Hcalls as <- <-.
  split; [exact (proj1 (Hraise _ eq_refl)) |].
  split; [exact (proj2 (Hraise _ eq_refl)) |].
  split; [exact (proj1 (Hpipe (@Build_request Reference.externals "a cat" "blurry"
                                 Reference.square Reference.hole "7.5"
                                 "DDIMScheduler" 50 (2 ^ 64) 512 512 1) eq_refl)) |].
  split; [exact (Hopen (Reference.form (Some Reference.garbage) Reference.stroke true)
                   Reference.garbage _ eq_refl eq_refl) |].
  exact (Happ (Reference.form (Some Reference.thumbnail) Reference.stroke true)
           Reference.thumbnail Reference.thumbnail 1%nat "path" []
           (Euler :: "PNDMScheduler" :: "DDIMScheduler" :: "LMSDiscreteScheduler" :: nil)
           Euler eq_refl eq_refl eq_refl eq_refl eq_refl eq_refl eq_refl).
Defined.

(** The select box of the reference instance. *)
Example scheduler_list_reference :
  available_schedulers (X := Reference.externals) (self Reference.cpu) Reference.cpu =
  (Ret ["EulerAncestralDiscreteScheduler"; "PNDMScheduler"; "DDIMScheduler";
        "LMSDiscreteScheduler"], Reference.cpu).
Proof. reflexivity. Qed.

(** * Further properties of the module *)

(** ** The constructor *)

(** What the constructor puts on the pipeline. *)
Lemma post_init_pipeline {X : Externals} {F : Framework}
    (m d o : option string) (tr tr0 : list event) (self0 : Inpainting) :
  __post_init__ m d o tr = (Ret self0, tr0) ->
  safety_checker (pipeline self0) = no_safety_checker /\
  torch_dtype (pipeline self0) = (if device_is d "cuda" then float16 else float32) /\
  attention_slicing (pipeline self0) = device_is d "mps".
Proof.
  unfold __post_init__, bind, lift.
  destruct (from_pretrained m (if device_is d "cuda" then float16 else float32))
    as [[wts s0] | e]; [| discriminate].
  destruct (to_device wts d) as [wts' | e]; [| discriminate].
  intros H. destruct (device_is d "mps").
  - unfold download_image, bind, emit0, emit, lift, ret in H.
    repeat match type of H with
           | context [match ?x with _ => _ end] =>
               let E := fresh "E" in destruct x eqn:E; try discriminate
           end;
      injection H as <- <-; repeat split.
  - injection H as <- <-. repeat split.
Qed.

(** X1. On every device but "mps" the only effects of the constructor
    outside the instance are the loading of the model and, once that has
    returned, the move of the pipeline to the device, whether the
    constructor returns or raises: it requests no image and never calls the
    pipeline.  On "mps" a constructor that returns has, after loading and
    moving, made in this order the two image requests and one warm-up call
    of the pipeline it keeps, with the fixed prompt, image and mask resized
    to 512 by 512, two inference steps and no other keyword. *)
Theorem constructor_effects {X : Externals} {F : Framework}
    (m d o : option string) (tr : list event) :
  let dtype := if device_is d "cuda" then float16 else float32 in
  if device_is d "mps" then
    forall self0 tr0,
      __post_init__ m d o tr = (Ret self0, tr0) ->
      exists init_image mask_image,
        tr0 = (tr ++ [ FromPretrained m dtype; PipelineTo d;
                       HttpGet img_url; HttpGet mask_url;
                       PipelineCall (pipeline self0)
                         {| kw_prompt := "Face of a yellow cat, high resolution, sitting on a park bench";
                            kw_negative_prompt := None;
                            kw_image := Resize 512 512 None (Convert "RGB" init_image);
                            kw_mask_image := Resize 512 512 None (Convert "RGB" mask_image);
                            kw_num_inference_steps := 2;
                            kw_guidance_scale := None;
                            kw_num_images_per_prompt := None;
                            kw_generator := None;
                            kw_height := None;
                            kw_width := None |} ])%list
  else
    snd (__post_init__ m d o tr) =
    (tr ++ FromPretrained m dtype
        :: match from_pretrained m dtype with
           | Ret _ => [PipelineTo d]
           | Raise _ => []
           end)%list.
Proof.
  intros dtype. destruct (device_is d "mps") eqn:Hmps.
  - intros self0 tr0. unfold __post_init__, bind, lift, emit0, emit. fold dtype.
    destruct (from_pretrained m dtype) as [[wts s0] | e]; [| discriminate].
    destruct (to_device wts d) as [wts' | e]; [| discriminate].
    rewrite Hmps. unfold download_image, bind, emit0, emit, lift, ret.
    destruct (requests_get img_url) as [b1 | e]; [| discriminate].
    destruct (Image_open b1) as [im1 | e]; [| discriminate].
    destruct (requests_get mask_url) as [b2 | e]; [| discriminate].
    destruct (Image_open b2) as [im2 | e]; [| discriminate].
    match goal with |- context [denoise ?p ?k] => destruct (denoise p k) end;
      [| discriminate].
    intros H. injection H as <- <-. exists im1, im2.
    repeat rewrite <- app_assoc. reflexivity.
  - unfold __post_init__, bind, lift, emit0, emit. fold dtype.
    destruct (from_pretrained m dtype) as [[wts s0] | e]; [| reflexivity].
    destruct (to_device wts d) as [wts' | e];
      [rewrite Hmps |]; cbn [snd]; now rewrite <- app_assoc.
Qed.

Lemma constructor_effects_witness :
  (exists init_image mask_image,
     trace Reference.mps =
     [ FromPretrained (Some "sd-inpainting") float32; PipelineTo (Some "mps");
       HttpGet img_url; HttpGet mask_url;
       PipelineCall (pipeline (self Reference.mps))
         (@Build_pipeline_call Reference.externals
            "Face of a yellow cat, high resolution, sitting on a park bench" None
            (Resize 512 512 None (Convert "RGB" init_image))
            (Resize 512 512 None (Convert "RGB" mask_image))
            2 None None None None None) ]) /\
  snd (__post_init__ (F := Reference.framework)
         (Some "sd-inpainting") (Some "cuda") (Some "out") []) =
  [FromPretrained (Some "sd-inpainting") float16; PipelineTo (Some "cuda")] /\
  snd (__post_init__ (F := Reference.framework) None (Some "cpu") None []) =
  [FromPretrained None float32].
Proof.
  split; [| split].
  - exact (constructor_effects (F := Reference.framework)
             (Some "sd-inpainting") (Some "mps") (Some "out") []
             (self Reference.mps) (trace Reference.mps) eq_refl).
  - exact (constructor_effects (F := Reference.framework)
             (Some "sd-inpainting") (Some "cuda") (Some "out") []).
  - exact (constructor_effects (F := Reference.framework) None (Some "cpu") None []).
Defined.

(** X2. A model that does not load makes the constructor raise the loader's
    exception on every device, with no image requested and no pipeline call;
    so does a pipeline that cannot be moved to the device.  On "mps", when
    the first image request fails the constructor raises that exception
    after the one request, and the pipeline is never called. *)
Theorem constructor_failures {X : Externals} {F : Framework}
    (m d o : option string) (tr : list event) (e : exn) :
  let dtype := if device_is d "cuda" then float16 else float32 in
  (from_pretrained m dtype = Raise e ->
   __post_init__ m d o tr = (Raise e, (tr ++ [FromPretrained m dtype])%list)) /\
  (forall wts s0,
     from_pretrained m dtype = Ret (wts, s0) ->
     to_device wts d = Raise e ->
     __post_init__ m d o tr =
     (Raise e, (tr ++ [FromPretrained m dtype; PipelineTo d])%list)) /\
  (forall wts s0 wts',
     from_pretrained m dtype = Ret (wts, s0) ->
     to_device wts d = Ret wts' ->
     device_is d "mps" = true ->
     requests_get img_url = Raise e ->
     __post_init__ m d o tr =
     (Raise e, (tr ++ [FromPretrained m dtype; PipelineTo d; HttpGet img_url])%list) /\
     pipeline_calls (snd (__post_init__ m d o tr)) = pipeline_calls tr).
Proof.
  intros dtype. unfold __post_init__, bind, lift, emit0, emit. fold dtype.
  split; [| split].
  - intros H. now rewrite H.
  - intros wts s0 H1 H2. rewrite H1, H2. now rewrite <- app_assoc.
  - intros wts s0 wts' H1 H2 Hmps Hget. rewrite H1, H2, Hmps.
    unfold download_image, bind, emit0, emit, lift. rewrite Hget.
    split; [now rewrite <- !app_assoc |].
    cbn [snd]. rewrite !pipeline_calls_app. cbn. now rewrite !app_nil_r.
Qed.

Lemma constructor_failures_witness :
  __post_init__ (F := Reference.framework) None (Some "mps") (Some "out") [] =
  (Raise (FrameworkError "model id is None"), [FromPretrained None float32]) /\
  __post_init__ (F := Reference.faulty true false)
    (Some "sd-inpainting") (Some "tpu") (Some "out") [] =
  (Raise (FrameworkError "unsupported device"),
   [FromPretrained (Some "sd-inpainting") float32; PipelineTo (Some "tpu")]) /\
  __post_init__ (F := Reference.faulty false true)
    (Some "sd-inpainting") (Some "mps") (Some "out") [] =
  (Raise (FrameworkError "connection failed"),
   [FromPretrained (Some "sd-inpainting") float32; PipelineTo (Some "mps");
    HttpGet img_url]).
Proof.
  split; [| split].
  - exact (proj1 (constructor_failures (F := Reference.framework)
                    None (Some "mps") (Some "out") []
                    (FrameworkError "model id is None")) eq_refl).
  - exact (proj1 (proj2 (constructor_failures (F := Reference.faulty true false)
                    (Some "sd-inpainting") (Some "tpu") (Some "out") []
                    (FrameworkError "unsupported device")))
                    _ _ eq_refl eq_refl).
  - exact (proj1 (proj2 (proj2 (constructor_failures (F := Reference.faulty false true)
                    (Some "sd-inpainting") (Some "mps") (Some "out") []
                    (FrameworkError "connection failed")))
                    _ _ _ eq_refl eq_refl eq_refl eq_refl)).
Defined.

(** ** What stays on the pipeline *)

(** X3. The safety checker of a constructed instance is [no_safety_checker],
    and no sequence of [_set_scheduler], [generate_image], [app] and
    [__str__] calls, returning or raising, puts another one back: every
    pipeline call of the instance's lifetime runs unchecked. *)
Theorem safety_checker_stays_off {X : Externals} {F : Framework}
    (m d o : option string) (tr tr0 : list event) (self0 : Inpainting) (w : World) :
  __post_init__ m d o tr = (Ret self0, tr0) ->
  reachable {| self := self0; trace := tr0 |} w ->
  safety_checker (pipeline (self w)) = no_safety_checker.
Proof.
  intros Hnew Hreach.
  destruct (post_init_pipeline m d o tr tr0 self0 Hnew) as [Hsc _].
  destruct (reachable_frame _ _ Hreach) as [_ [_ [_ [_ [_ [Hsc' _]]]]]].
  cbn [self] in Hsc'. congruence.
Qed.

Lemma safety_checker_stays_off_witness :
  safety_checker
    (pipeline
       (self (after (F := Reference.framework)
                (call_app (Reference.form (Some Reference.square) Reference.stroke true))
                (after (F := Reference.framework)
                   (call_generate_image (Reference.req 512 2)) Reference.mps)))) =
  no_safety_checker.
Proof.
  apply (safety_checker_stays_off (F := Reference.framework)
           (Some "sd-inpainting") (Some "mps") (Some "out") []
           (trace Reference.mps) (self Reference.mps)).
  - reflexivity.
  - repeat apply reach_step. apply reach_start.
Defined.

(** X4. Precision and attention slicing are chosen once, by the device, and
    kept: at any later time the pipeline computes in [float16] exactly when
    the device is "cuda" and has attention slicing on exactly when the
    device is "mps". *)
Theorem device_settings_kept {X : Externals} {F : Framework}
    (m d o : option string) (tr tr0 : list event) (self0 : Inpainting) (w : World) :
  __post_init__ m d o tr = (Ret self0, tr0) ->
  reachable {| self := self0; trace := tr0 |} w ->
  (torch_dtype (pipeline (self w)) = float16 <-> d = Some "cuda") /\
  (attention_slicing (pipeline (self w)) = true <-> d = Some "mps").
Proof.
  intros Hnew Hreach.
  destruct (post_init_pipeline m d o tr tr0 self0 Hnew) as [_ [Hdt Hat]].
  destruct (reachable_frame _ _ Hreach) as [_ [_ [_ [_ [Hdt' [_ [Hat' _]]]]]]].
  cbn [self] in Hdt', Hat'. rewrite <- Hdt', <- Hat', Hdt, Hat.
  unfold device_is. destruct d as [dev |].
  - split.
    + destruct (String.eqb dev "cuda") eqn:E.
      * apply String.eqb_eq in E. subst. tauto.
      * apply String.eqb_neq in E. split; [discriminate | congruence].
    + rewrite String.eqb_eq. split; congruence.
  - split; split; discriminate.
Qed.

Lemma device_settings_kept_witness :
  let w := after (F := Reference.framework)
             (call_generate_image (Reference.req 512 2)) Reference.mps in
  (torch_dtype (pipeline (self w)) = float16 <-> Some "mps" = Some "cuda") /\
  (attention_slicing (pipeline (self w)) = true <-> Some "mps" = Some "mps").
Proof.
  intros w.
  apply (device_settings_kept (F := Reference.framework)
           (Some "sd-inpainting") (Some "mps") (Some "out") []
           (trace Reference.mps) (self Reference.mps) w).
  - reflexivity.
  - subst w. repeat apply reach_step. apply reach_start.
Defined.

(** ** The dict of selectable schedulers *)

Lemma get_set_same {V : Type} (d : PyDict.dict V) (k : string) (v : V) :
  PyDict.get (PyDict.set d k v) k = Some v.
Proof.
  induction d as [| [k' v'] r IH]; simpl.
  - now rewrite String.eqb_refl.
  - destruct (String.eqb k k') eqn:E; simpl; rewrite E; [reflexivity | exact IH].
Qed.

Lemma get_set_other {V : Type} (d : PyDict.dict V) (k k' : string) (v : V) :
  k' <> k -> PyDict.get (PyDict.set d k v) k' = PyDict.get d k'.
Proof.
  intros Hne. induction d as [| [k0 v0] r IH]; simpl.
  - apply String.eqb_neq in Hne. now rewrite Hne.
  - destruct (String.eqb k k0) eqn:E; simpl.
    + apply String.eqb_eq in E. subst k0.
      apply String.eqb_neq in Hne. now rewrite Hne.
    + now rewrite IH.
Qed.

Lemma get_fold_set_other {V : Type} (key : V -> string) (l : list V)
    (d : PyDict.dict V) (k : string) :
  (forall y, In y l -> key y <> k) ->
  PyDict.get (fold_left (fun d x => PyDict.set d (key x) x) l d) k = PyDict.get d k.
Proof.
  revert d. induction l as [| x l IH]; intros d Hl; simpl; [reflexivity |].
  rewrite IH by (intros y Hy; apply Hl; now right).
  apply get_set_other. intros Heq. apply (Hl x); [now left | congruence].
Qed.

(** In [{key(x): x for x in l}] a key leads to the last element of [l] that
    has it. *)
Lemma comprehension_get {V : Type} (key : V -> string) (l1 l2 : list V) (x : V) :
  (forall y, In y l2 -> key y <> key x) ->
  PyDict.get (PyDict.comprehension key (l1 ++ x :: l2)) (key x) = Some x.
Proof.
  intros Hl2. unfold PyDict.comprehension. rewrite fold_left_app. simpl.
  rewrite get_fold_set_other by exact Hl2. apply get_set_same.
Qed.

Example comprehension_duplicate_key :
  PyDict.comprehension fst [("a", 1); ("b", 2); ("a", 3)] = [("a", ("a", 3)); ("b", ("b", 2))].
Proof. reflexivity. Qed.

(** X5. When the loaded pipeline reports several compatible scheduler
    classes under one [__name__], that name selects the last of them: the
    dict of a constructed instance maps the name of a class to that class
    whenever no later class of the reported list has the same name, and
    [_set_scheduler] then installs that class instantiated from the stored
    configuration. *)
Theorem last_class_of_a_name_is_selected {X : Externals} {F : Framework}
    (m d o : option string) (tr tr0 : list event) (self0 : Inpainting)
    (before after_ : list SchedulerClass) (cls : SchedulerClass) :
  __post_init__ m d o tr = (Ret self0, tr0) ->
  _compatible_schedulers self0 = (before ++ cls :: after_)%list ->
  (forall c, In c after_ -> class_name c <> class_name cls) ->
  PyDict.get (compatible_schedulers self0) (class_name cls) = Some cls /\
  current_scheduler
    (self (snd (_set_scheduler (class_name cls) {| self := self0; trace := tr0 |}))) =
  from_config cls (scheduler_config self0).
Proof.
  intros Hnew Hlist Hafter.
  destruct (post_init_returns m d o tr tr0 self0 Hnew)
    as [wts [s0 [_ [_ [_ [_ [Hl [_ [Hdict _]]]]]]]]].
  assert (PyDict.get (compatible_schedulers self0) (class_name cls) = Some cls) as Hget.
  { rewrite Hdict, <- Hl, Hlist. apply comprehension_get, Hafter. }
  split; [exact Hget |].
  now rewrite (set_scheduler_known (class_name cls) cls
                 {| self := self0; trace := tr0 |} Hget).
Qed.

Lemma last_class_of_a_name_is_selected_witness :
  PyDict.get (compatible_schedulers (self Reference.cpu)) "DDIMScheduler" =
  Some "DDIMScheduler" /\
  current_scheduler
    (self (snd (_set_scheduler (F := Reference.framework) "DDIMScheduler"
                  Reference.cpu))) = ("DDIMScheduler", 1000%nat).
Proof.
  apply (last_class_of_a_name_is_selected (F := Reference.framework)
           (Some "sd-inpainting") (Some "cpu") (Some "out") []
           (trace Reference.cpu) (self Reference.cpu)
           ["PNDMScheduler"] ["EulerAncestralDiscreteScheduler"; "LMSDiscreteScheduler"]
           "DDIMScheduler").
  - reflexivity.
  - reflexivity.
  - intros c [<- | [<- | []]]; discriminate.
Defined.

Lemma available_schedulers_permutation {X : Externals} {F : Framework}
    (self : Inpainting) (w : World) :
  exists l, available_schedulers self w = (Ret l, w) /\
            Permutation (PyDict.keys (compatible_schedulers self)) l.
Proof.
  pose proof (available_schedulers_run self w) as H. cbv zeta in H.
  destruct (PyList.contains Euler (PyDict.keys (compatible_schedulers self))).
  - destruct H as [l1 [l2 [Hk [_ H]]]]. eexists. split; [exact H |].
    rewrite Hk. symmetry. apply Permutation_middle.
  - eexists. split; [exact H | apply Permutation_refl].
Qed.

(** X6. At any time in the life of a constructed instance, the scheduler
    list of the form is built without an exception, has no name twice, and
    its names are exactly the [__name__]s of the classes the loaded pipeline
    reported as compatible. *)
Theorem offered_names {X : Externals} {F : Framework}
    (m d o : option string) (tr tr0 : list event) (self0 : Inpainting) (w : World) :
  __post_init__ m d o tr = (Ret self0, tr0) ->
  reachable {| self := self0; trace := tr0 |} w ->
  exists l,
    available_schedulers (self w) w = (Ret l, w) /\
    NoDup l /\
    forall n, In n l <->
              exists cls, In cls (_compatible_schedulers self0) /\ class_name cls = n.
Proof.
  intros Hnew Hreach.
  destruct (selectable_names m d o tr tr0 self0 Hnew) as [Hnd Hin].
  destruct (reachable_frame _ _ Hreach) as [_ [_ [_ [_ [_ [_ [_ [_ [_ Hdict]]]]]]]]].
  cbn [self] in Hdict.
  destruct (available_schedulers_permutation (self w) w) as [l [Hav Hperm]].
  rewrite <- Hdict in Hperm.
  exists l. split; [exact Hav |]. split.
  - exact (Permutation_NoDup Hperm Hnd).
  - intros n. rewrite <- Hin. split; apply Permutation_in;
      [symmetry |]; exact Hperm.
Qed.

Lemma offered_names_witness :
  let w := after (F := Reference.framework)
             (call_generate_image (Reference.req 512 2)) Reference.cpu in
  exists l,
    available_schedulers (self w) w = (Ret l, w) /\
    NoDup l /\
    forall n, In n l <->
              exists cls, In cls Reference.names /\
                          class_name (Framework := Reference.framework) cls = n.
Proof.
  intros w.
  apply (offered_names (F := Reference.framework)
           (Some "sd-inpainting") (Some "cpu") (Some "out") []
           (trace Reference.cpu) (self Reference.cpu) w).
  - reflexivity.
  - subst w. repeat apply reach_step. apply reach_start.
Defined.

(** ** Scheduler swaps in sequence *)

(** X7. The last scheduler set is the one in force: setting a known name
    and then another known name ends in the same world as setting the
    second alone.  When the second name is unknown the sequence raises its
    [KeyError] and the first scheduler stays installed. *)
Theorem set_scheduler_last_wins {X : Externals} {F : Framework}
    (a b : string) (w : World) :
  PyList.contains a (PyDict.keys (compatible_schedulers (self w))) = true ->
  if PyList.contains b (PyDict.keys (compatible_schedulers (self w))) then
    (_set_scheduler a ;; _set_scheduler b) w = _set_scheduler b w
  else
    (_set_scheduler a ;; _set_scheduler b) w =
    (Raise (KeyError b), snd (_set_scheduler a w)).
Proof.
  intros Ha. destruct (known_name _ _ Ha) as [ca Hca].
  pose proof (set_scheduler_known a ca w Hca) as Hfirst.
  set (w1 := install (from_config ca (scheduler_config (self w))) w) in Hfirst.
  destruct (PyList.contains b (PyDict.keys (compatible_schedulers (self w)))) eqn:Hb;
    unfold bind; rewrite Hfirst; cbn [snd].
  - destruct (known_name _ _ Hb) as [cb Hcb].
    pose proof (set_scheduler_known b cb w1 Hcb) as Hw1.
    pose proof (set_scheduler_known b cb w Hcb) as Hw.
    etransitivity; [exact Hw1 |]. symmetry. etransitivity; [exact Hw |]. reflexivity.
  - apply unknown_name in Hb.
    exact (set_scheduler_unknown b w1 Hb).
Qed.

Lemma set_scheduler_last_wins_witness :
  (_set_scheduler (F := Reference.framework) "DDIMScheduler" ;;
   _set_scheduler (F := Reference.framework) "LMSDiscreteScheduler") Reference.cpu =
  _set_scheduler (F := Reference.framework) "LMSDiscreteScheduler" Reference.cpu /\
  (_set_scheduler (F := Reference.framework) "DDIMScheduler" ;;
   _set_scheduler (F := Reference.framework) "KarrasScheduler") Reference.cpu =
  (Raise (KeyError "KarrasScheduler"),
   snd (_set_scheduler (F := Reference.framework) "DDIMScheduler" Reference.cpu)).
Proof.
  split.
  - exact (set_scheduler_last_wins (F := Reference.framework)
             "DDIMScheduler" "LMSDiscreteScheduler" Reference.cpu eq_refl).
  - exact (set_scheduler_last_wins (F := Reference.framework)
             "DDIMScheduler" "KarrasScheduler" Reference.cpu eq_refl).
Defined.

(** ** One call, and the next *)

(** The instance after a call with a known scheduler name, returned or
    raised. *)
Lemma generate_image_self {X : Externals} {F : Framework}
    (prompt negative_prompt : string) (image mask : Image)
    (guidance_scale : pyfloat) (name : string) (steps seed height width : Z)
    (num_images : Z) (cls : SchedulerClass) (w : World) :
  PyDict.get (compatible_schedulers (self w)) name = Some cls ->
  self (snd (generate_image prompt negative_prompt image mask guidance_scale
               name steps seed height width num_images w)) =
  self (install (from_config cls (scheduler_config (self w))) w).
Proof.
  intros H. destruct (seed_in_range seed) eqn:Hseed.
  - rewrite (generate_image_run prompt negative_prompt image mask guidance_scale
               name steps seed height width num_images cls w H Hseed).
    cbv zeta.
    match goal with |- context [denoise ?p ?k] => destruct (denoise p k) end;
      reflexivity.
  - now rewrite (generate_image_bad_seed prompt negative_prompt image mask
                   guidance_scale name steps seed height width num_images cls w
                   H Hseed).
Qed.

(** X8. A call with a known scheduler name leaves that scheduler installed
    whether the pipeline returns or raises.  The accelerator cache is
    emptied and the garbage collector run only after the pipeline has
    returned and the images are saved, as the last two effects of the call;
    when the pipeline raises, neither happens and nothing is saved. *)
Theorem cleanup_only_on_success {X : Externals} {F : Framework}
    (prompt negative_prompt : string) (image mask : Image)
    (guidance_scale : pyfloat) (name : string) (steps seed height width : Z)
    (num_images : Z) (w : World) :
  PyList.contains name (PyDict.keys (compatible_schedulers (self w))) = true ->
  let out := generate_image prompt negative_prompt image mask guidance_scale
               name steps seed height width num_images w in
  let new := skipn (length (trace w)) (trace (snd out)) in
  (exists cls, PyDict.get (compatible_schedulers (self w)) name = Some cls /\
               current_scheduler (self (snd out)) =
               from_config cls (scheduler_config (self w))) /\
  match fst out with
  | Ret (output_images, _) =>
      exists before text,
        new = (before ++ [SaveImages output_images "inpainting" text
                            (output_path (self w)); EmptyCache; GcCollect])%list /\
        ~ In EmptyCache before /\ ~ In GcCollect before /\ saved before = []
  | Raise _ => ~ In EmptyCache new /\ ~ In GcCollect new /\ saved new = []
  end.
Proof.
  intros Hin out new. destruct (known_name _ _ Hin) as [cls Hcls]. split.
  - exists cls. split; [exact Hcls |]. subst out. unfold current_scheduler.
    now rewrite (generate_image_self prompt negative_prompt image mask
                   guidance_scale name steps seed height width num_images cls w Hcls).
  - subst new out. destruct (seed_in_range seed) eqn:Hseed.
    + rewrite (generate_image_run prompt negative_prompt image mask guidance_scale
                 name steps seed height width num_images cls w Hcls Hseed).
      cbv zeta.
      match goal with |- context [denoise ?p ?k] => destruct (denoise p k) end;
        cbn [fst snd trace]; repeat rewrite <- app_assoc;
        rewrite skipn_app, skipn_all, Nat.sub_diag; cbn [skipn app].
      * eexists. eexists. split.
        -- reflexivity.
        -- destruct (device_is (device (self w)) "mps"); cbn;
             intuition discriminate.
      * destruct (device_is (device (self w)) "mps"); cbn; intuition discriminate.
    + rewrite (generate_image_bad_seed prompt negative_prompt image mask
                 guidance_scale name steps seed height width num_images cls w
                 Hcls Hseed).
      cbn [fst snd trace]. rewrite skipn_app, skipn_all, Nat.sub_diag.
      cbn. intuition discriminate.
Qed.

Lemma cleanup_only_on_success_witness :
  let out := generate_image (F := Reference.framework) "a cat" "blurry"
               Reference.square Reference.hole "7.5" "DDIMScheduler" 50 42 512 100 1
               Reference.cpu in
  let new := skipn (length (trace Reference.cpu)) (trace (snd out)) in
  let out' := generate_image (F := Reference.framework) "a cat" "blurry"
                Reference.square Reference.hole "7.5" "DDIMScheduler" 50 (2 ^ 64)
                512 512 1 Reference.cpu in
  let new' := skipn (length (trace Reference.cpu)) (trace (snd out')) in
  fst out = Raise (FrameworkError "height and width have to be divisible by 8") /\
  ((exists cls, PyDict.get (compatible_schedulers (self Reference.cpu)) "DDIMScheduler"
                = Some cls /\
                current_scheduler (self (snd out)) =
                from_config (Framework := Reference.framework) cls 1000%nat) /\
   ~ In EmptyCache new /\ ~ In GcCollect new /\ saved new = []) /\
  new' = [LogInfo (X := Reference.externals) ("DDIMScheduler", 1000%nat)] /\
  ((exists cls, PyDict.get (compatible_schedulers (self Reference.cpu)) "DDIMScheduler"
                = Some cls /\
                current_scheduler (self (snd out')) =
                from_config (Framework := Reference.framework) cls 1000%nat) /\
   ~ In EmptyCache new' /\ ~ In GcCollect new' /\ saved new' = []).
Proof.
  intros out new out' new'. split; [reflexivity | split; [| split; [reflexivity |]]].
  - exact (cleanup_only_on_success (F := Reference.framework) "a cat" "blurry"
             Reference.square Reference.hole "7.5" "DDIMScheduler" 50 42 512 100 1
             Reference.cpu eq_refl).
  - exact (cleanup_only_on_success (F := Reference.framework) "a cat" "blurry"
             Reference.square Reference.hole "7.5" "DDIMScheduler" 50 (2 ^ 64)
             512 512 1 Reference.cpu eq_refl).
Defined.

(** X9. Calling [generate_image] twice in a row with the same arguments,
    a known scheduler name and an accepted seed, invokes the pipeline twice
    in the same way: the pipeline is in the same state (the first call's
    scheduler is installed again, nothing else has moved) and gets the same
    keywords, the generator being rebuilt from the seed for each call.  With
    a seed that is not accepted both calls raise [ValueError] and neither
    reaches the pipeline. *)
Theorem repeated_call_same_invocation {X : Externals} {F : Framework}
    (prompt negative_prompt : string) (image mask : Image)
    (guidance_scale : pyfloat) (name : string) (steps seed height width : Z)
    (num_images : Z) (w : World) :
  PyList.contains name (PyDict.keys (compatible_schedulers (self w))) = true ->
  let call := generate_image prompt negative_prompt image mask guidance_scale
                name steps seed height width num_images in
  if seed_in_range seed then
    exists p kw,
      pipeline_calls (trace (snd (call (snd (call w))))) =
      (pipeline_calls (trace w) ++ [(p, kw); (p, kw)])%list /\
      kw_generator kw =
      Some (if device_is (device (self w)) "mps" then global_generator seed
            else device_generator (device (self w)) seed)
  else
    fst (call w) = Raise (ValueError "Overflow when unpacking long long") /\
    fst (call (snd (call w))) = Raise (ValueError "Overflow when unpacking long long") /\
    pipeline_calls (trace (snd (call (snd (call w))))) = pipeline_calls (trace w).
Proof.
  intros Hin call. destruct (known_name _ _ Hin) as [cls Hcls].
  pose proof (generate_image_self prompt negative_prompt image mask guidance_scale
                name steps seed height width num_images cls w Hcls) as Hself.
  fold call in Hself. set (w1 := snd (call w)) in *.
  assert (PyDict.get (compatible_schedulers (self w1)) name = Some cls) as Hcls1
    by (rewrite Hself; exact Hcls).
  destruct (seed_in_range seed) eqn:Hseed.
  - subst call.
    rewrite (generate_image_calls prompt negative_prompt image mask guidance_scale
               name steps seed height width num_images cls w1 Hcls1 Hseed).
    subst w1.
    rewrite (generate_image_calls prompt negative_prompt image mask guidance_scale
               name steps seed height width num_images cls w Hcls Hseed).
    rewrite <- app_assoc. cbn [app install self pipeline].
    rewrite Hself. cbn [install self pipeline device scheduler_config weights
                          torch_dtype safety_checker attention_slicing].
    eexists. eexists. split; reflexivity.
  - destruct (generate_image_no_call prompt negative_prompt image mask
                guidance_scale name steps seed height width num_images cls w1
                Hcls1 Hseed) as [Hr1 [Hc1 _]].
    destruct (generate_image_no_call prompt negative_prompt image mask
                guidance_scale name steps seed height width num_images cls w
                Hcls Hseed) as [Hr [Hc _]].
    fold call in Hr1, Hc1, Hr, Hc. fold w1 in Hc.
    split; [exact Hr |]. split; [exact Hr1 |]. congruence.
Qed.

Lemma repeated_call_same_invocation_witness :
  (exists p kw,
     pipeline_calls
       (trace (snd (generate (F := Reference.framework) (Reference.req 512 2)
                      (snd (generate (F := Reference.framework) (Reference.req 512 2)
                              Reference.mps))))) =
     (pipeline_calls (trace Reference.mps) ++ [(p, kw); (p, kw)])%list /\
     kw_generator kw = Some (global_generator 42)) /\
  pipeline_calls
    (trace (snd (generate_image (F := Reference.framework) "a cat" "blurry"
                   Reference.square Reference.hole "7.5" "DDIMScheduler"
                   50 (2 ^ 64) 512 512 2
                   (snd (generate_image (F := Reference.framework) "a cat" "blurry"
                           Reference.square Reference.hole "7.5" "DDIMScheduler"
                           50 (2 ^ 64) 512 512 2 Reference.mps))))) =
  pipeline_calls (trace Reference.mps).
Proof.
  split.
  - exact (repeated_call_same_invocation (F := Reference.framework) "a cat" "blurry"
             Reference.square Reference.hole "7.5" "DDIMScheduler" 50 42 512 512 2
             Reference.mps eq_refl).
  - exact (proj2 (proj2 (repeated_call_same_invocation (F := Reference.framework)
             "a cat" "blurry" Reference.square Reference.hole "7.5" "DDIMScheduler"
             50 (2 ^ 64) 512 512 2 Reference.mps eq_refl))).
Defined.

(** ** The form, once the guard holds *)

Lemma nth_error_known {X : Externals} {F : Framework} (self : Inpainting) (w : World)
    (l : list string) (picked : option nat) (name : string) :
  available_schedulers self w = (Ret l, w) ->
  selectbox l 0 picked = Some name ->
  PyList.contains name (PyDict.keys (compatible_schedulers self)) = true.
Proof.
  intros Hav Hsel.
  destruct (available_schedulers_permutation self w) as [l' [Hav' Hperm]].
  rewrite Hav in Hav'. injection Hav' as <-.
  apply contains_In. apply (Permutation_in _ (Permutation_sym Hperm)).
  unfold selectbox in Hsel. eapply nth_error_In. exact Hsel.
Qed.

(** The one pipeline call [app] makes when every operand of the guard
    holds and the select box yields a name. *)
Lemma app_reaches_pipeline {X : Externals} {F : Framework} (ui : Widgets) (w : World)
    (uploaded_file : Blob) (im : Image) (px : nat) (o : string)
    (objs l : list string) (name : string) :
  inpainting_uploaded_file ui = Some uploaded_file ->
  Image_open uploaded_file = Ret im ->
  raster (inpainting_canvas ui) = Some px ->
  objects (inpainting_canvas ui) = Some (o :: objs) ->
  inpainting_submit ui = true ->
  available_schedulers (self w) w = (Ret l, w) ->
  selectbox l 0 (inpainting_scheduler ui) = Some name ->
  exists cls,
    PyDict.get (compatible_schedulers (self w)) name = Some cls /\
    pipeline_calls (trace (snd (app ui w))) =
    (pipeline_calls (trace w) ++
     [(pipeline (self (install (from_config cls (scheduler_config (self w))) w)),
       {| kw_prompt := inpainting_prompt ui;
          kw_negative_prompt := Some (inpainting_negative_prompt ui);
          kw_image := Convert "RGB" im;
          kw_mask_image :=
            Resize (snd (size im)) (fst (size im)) (Some LANCZOS)
              (Convert "RGB"
                 (Fromarray {| nd_rows := 768; nd_cols := 768; nd_data := px |} 3));
          kw_num_inference_steps := value (inpainting_steps ui);
          kw_guidance_scale := Some (inpainting_guidance_scale ui);
          kw_num_images_per_prompt :=
            Some (if device_is (device (self w)) "mps" then 1
                  else value (inpainting_num_images ui));
          kw_generator :=
            Some (if device_is (device (self w)) "mps"
                  then global_generator (value (inpainting_seed ui))
                  else device_generator (device (self w)) (value (inpainting_seed ui)));
          kw_height := Some (fst (size im));
          kw_width := Some (snd (size im)) |})])%list.
Proof.
  intros Hfile Hopen Hraster Hobjs Hsubmit Hav Hsel.
  pose proof (nth_error_known (self w) w l _ name Hav Hsel) as Hin.
  destruct (known_name _ _ Hin) as [cls Hcls].
  exists cls. split; [exact Hcls |].
  rewrite (app_generates ui w uploaded_file im px o objs l name
             Hfile Hopen Hraster Hobjs Hsubmit Hav Hsel).
  cbv zeta. cbn [size].
  match goal with |- context [generate_image ?a ?b ?c ?d ?e ?f ?g ?h ?i ?j ?k ?w] =>
    pose proof (generate_image_calls a b c d e f g h i j k cls w Hcls
                  (widget_seed_accepted _)) as Hcalls;
    destruct (generate_image a b c d e f g h i j k w) as [[[imgs md] | e'] w']
  end; cbn [snd trace] in *; rewrite ?pipeline_calls_app, Hcalls;
    cbn [pipeline_calls]; rewrite ?app_nil_r; reflexivity.
Qed.

(** X10. Whatever entry of the select box is in force, it names a key of
    [compatible_schedulers]: once the guard holds, [app] does not stop at the
    dict lookup but reaches the pipeline, once, with the scheduler of the
    chosen name freshly instantiated from the stored configuration. *)
Theorem app_choice_is_selectable {X : Externals} {F : Framework}
    (ui : Widgets) (w : World) (uploaded_file : Blob) (im : Image) (px : nat)
    (o : string) (objs l : list string) (name : string) :
  inpainting_uploaded_file ui = Some uploaded_file ->
  Image_open uploaded_file = Ret im ->
  raster (inpainting_canvas ui) = Some px ->
  objects (inpainting_canvas ui) = Some (o :: objs) ->
  inpainting_submit ui = true ->
  available_schedulers (self w) w = (Ret l, w) ->
  selectbox l 0 (inpainting_scheduler ui) = Some name ->
  exists cls p kw,
    PyDict.get (compatible_schedulers (self w)) name = Some cls /\
    pipeline_calls (trace (snd (app ui w))) =
    (pipeline_calls (trace w) ++ [(p, kw)])%list /\
    scheduler p = from_config cls (scheduler_config (self w)).
Proof.
  intros Hfile Hopen Hraster Hobjs Hsubmit Hav Hsel.
  destruct (app_reaches_pipeline ui w uploaded_file im px o objs l name
              Hfile Hopen Hraster Hobjs Hsubmit Hav Hsel) as [cls [Hcls Hcalls]].
  exists cls. eexists. eexists. split; [exact Hcls |]. split; [exact Hcalls |].
  reflexivity.
Qed.

Lemma app_choice_is_selectable_witness :
  exists cls p kw,
    PyDict.get (compatible_schedulers (self Reference.cpu)) "LMSDiscreteScheduler"
    = Some cls /\
    pipeline_calls
      (trace (snd (app (F := Reference.framework)
                     (@Build_Widgets Reference.externals "a cat" "blurry"
                        (Some Reference.square) (Some 3%nat) "7.5"
                        (Build_bounded 1 30 2 eq_refl)
                        (Build_bounded 1 150 50 eq_refl)
                        (Build_bounded 1 999999 42 eq_refl)
                        "rect" (Build_bounded 1 25 8 eq_refl)
                        Reference.stroke true)
                     Reference.cpu))) = [(p, kw)] /\
    scheduler p = from_config (Framework := Reference.framework) cls 1000%nat.
Proof.
  exact (app_choice_is_selectable (F := Reference.framework)
           (@Build_Widgets Reference.externals "a cat" "blurry"
              (Some Reference.square) (Some 3%nat) "7.5"
              (Build_bounded 1 30 2 eq_refl)
              (Build_bounded 1 150 50 eq_refl)
              (Build_bounded 1 999999 42 eq_refl)
              "rect" (Build_bounded 1 25 8 eq_refl)
              Reference.stroke true)
           Reference.cpu Reference.square Reference.square 1%nat "path" []
           (Euler :: "PNDMScheduler" :: "DDIMScheduler" :: "LMSDiscreteScheduler" :: nil)
           "LMSDiscreteScheduler"
           eq_refl eq_refl eq_refl eq_refl eq_refl eq_refl eq_refl).
Defined.

(** X11. While the user has picked nothing, a submitted form runs the
    pipeline with "EulerAncestralDiscreteScheduler" whenever that name is
    selectable, and with the first name of [compatible_schedulers]
    otherwise. *)
Theorem app_default_scheduler {X : Externals} {F : Framework}
    (ui : Widgets) (w : World) (uploaded_file : Blob) (im : Image) (px : nat)
    (o : string) (objs : list string) (name : string) :
  inpainting_uploaded_file ui = Some uploaded_file ->
  Image_open uploaded_file = Ret im ->
  raster (inpainting_canvas ui) = Some px ->
  objects (inpainting_canvas ui) = Some (o :: objs) ->
  inpainting_submit ui = true ->
  inpainting_scheduler ui = None ->
  (if PyList.contains Euler (PyDict.keys (compatible_schedulers (self w)))
   then Some Euler
   else hd_error (PyDict.keys (compatible_schedulers (self w)))) = Some name ->
  exists cls p kw,
    PyDict.get (compatible_schedulers (self w)) name = Some cls /\
    pipeline_calls (trace (snd (app ui w))) =
    (pipeline_calls (trace w) ++ [(p, kw)])%list /\
    scheduler p = from_config cls (scheduler_config (self w)).
Proof.
  intros Hfile Hopen Hraster Hobjs Hsubmit Hnone Hdefault.
  pose proof (available_schedulers_run (self w) w) as Hrun. cbv zeta in Hrun.
  assert (exists l, available_schedulers (self w) w = (Ret l, w) /\
                    selectbox l 0 (inpainting_scheduler ui) = Some name)
    as [l [Hav Hsel]].
  { rewrite Hnone.
    destruct (PyList.contains Euler (PyDict.keys (compatible_schedulers (self w)))).
    - destruct Hrun as [l1 [l2 [_ [_ Hav]]]]. injection Hdefault as <-.
      eexists. split; [exact Hav | reflexivity].
    - eexists. split; [exact Hrun |].
      destruct (PyDict.keys (compatible_schedulers (self w))); exact Hdefault. }
  destruct (app_reaches_pipeline ui w uploaded_file im px o objs l name
              Hfile Hopen Hraster Hobjs Hsubmit Hav Hsel) as [cls [Hcls Hcalls]].
  exists cls. eexists. eexists. split; [exact Hcls |]. split; [exact Hcalls |].
  reflexivity.
Qed.

Lemma app_default_scheduler_witness :
  exists cls p kw,
    PyDict.get (compatible_schedulers (self Reference.cpu)) Euler = Some cls /\
    pipeline_calls
      (trace (snd (app (F := Reference.framework)
                     (Reference.form (Some Reference.square) Reference.stroke true)
                     Reference.cpu))) = [(p, kw)] /\
    scheduler p = from_config (Framework := Reference.framework) cls 1000%nat.
Proof.
  exact (app_default_scheduler (F := Reference.framework)
           (Reference.form (Some Reference.square) Reference.stroke true)
           Reference.cpu Reference.square Reference.square 1%nat "path" [] Euler
           eq_refl eq_refl eq_refl eq_refl eq_refl eq_refl eq_refl).
Defined.

(** X12. For every upload, the mask [app] hands to the pipeline is as wide
    as the upload is high and as high as the upload is wide, the [height]
    keyword carries the upload's width and the [width] keyword its height;
    so the mask agrees with the requested output size, and it has the
    upload's own dimensions exactly when the upload is square. *)
Theorem app_sizes {X : Externals} {F : Framework}
    (ui : Widgets) (w : World) (uploaded_file : Blob) (im : Image) (px : nat)
    (o : string) (objs l : list string) (name : string) :
  inpainting_uploaded_file ui = Some uploaded_file ->
  Image_open uploaded_file = Ret im ->
  raster (inpainting_canvas ui) = Some px ->
  objects (inpainting_canvas ui) = Some (o :: objs) ->
  inpainting_submit ui = true ->
  available_schedulers (self w) w = (Ret l, w) ->
  selectbox l 0 (inpainting_scheduler ui) = Some name ->
  exists p kw,
    pipeline_calls (trace (snd (app ui w))) =
    (pipeline_calls (trace w) ++ [(p, kw)])%list /\
    size (kw_image kw) = size im /\
    size (kw_mask_image kw) = (snd (size im), fst (size im)) /\
    kw_height kw = Some (fst (size im)) /\
    kw_width kw = Some (snd (size im)) /\
    (kw_width kw, kw_height kw) =
    (Some (fst (size (kw_mask_image kw))), Some (snd (size (kw_mask_image kw)))) /\
    (size (kw_mask_image kw) = size (kw_image kw) <-> fst (size im) = snd (size im)).
Proof.
  intros Hfile Hopen Hraster Hobjs Hsubmit Hav Hsel.
  destruct (app_reaches_pipeline ui w uploaded_file im px o objs l name
              Hfile Hopen Hraster Hobjs Hsubmit Hav Hsel) as [cls [Hcls Hcalls]].
  eexists. eexists. split; [exact Hcalls |].
  cbn [kw_image kw_mask_image kw_height kw_width size fst snd].
  repeat (split; [reflexivity |]).
  destruct (size im) as [a b]. cbn [fst snd]. split.
  - intros H. injection H as H1 H2. congruence.
  - intros ->. reflexivity.
Qed.

Lemma app_sizes_witness :
  exists p kw,
    pipeline_calls
      (trace (snd (app (F := Reference.framework)
                     (Reference.form (Some Reference.photo) Reference.stroke true)
                     Reference.cpu))) = [(p, kw)] /\
    size (kw_image kw) = (640, 480) /\
    size (kw_mask_image kw) = (480, 640) /\
    kw_height kw = Some 640 /\
    kw_width kw = Some 480 /\
    (kw_width kw, kw_height kw) =
    (Some (fst (size (kw_mask_image kw))), Some (snd (size (kw_mask_image kw)))) /\
    (size (kw_mask_image kw) = size (kw_image kw) <-> 640 = 480).
Proof.
  exact (app_sizes (F := Reference.framework)
           (Reference.form (Some Reference.photo) Reference.stroke true)
           Reference.cpu Reference.photo Reference.photo 1%nat "path" []
           (Euler :: "PNDMScheduler" :: "DDIMScheduler" :: "LMSDiscreteScheduler" :: nil)
           Euler eq_refl eq_refl eq_refl eq_refl eq_refl eq_refl eq_refl).
Defined.

(** X13. A canvas that has its raster but whose [json_data] is [None] makes
    [app] raise [TypeError] with nothing else done, and this whether or not
    Generate was pressed: the object list is looked at before the button.
    Without a raster the same canvas is not looked into, and [app] returns
    normally. *)
Theorem app_json_data_none {X : Externals} {F : Framework}
    (ui : Widgets) (w : World) (uploaded_file : Blob) (im : Image) :
  inpainting_uploaded_file ui = Some uploaded_file ->
  Image_open uploaded_file = Ret im ->
  objects (inpainting_canvas ui) = None ->
  app ui w =
  match raster (inpainting_canvas ui) with
  | Some _ => (Raise (TypeError "'NoneType' object is not subscriptable"), w)
  | None => (Ret tt, w)
  end.
Proof.
  intros Hfile Hopen Hobjs.
  destruct (available_schedulers_returns (self w) w) as [l Hav].
  unfold app, bind, get_self, lift. rewrite Hav, Hfile, Hopen.
  destruct (size (Convert "RGB" im)) as [h wd].
  unfold submit_guard, st_canvas, bind. rewrite Hobjs.
  cbn [image_data json_data Image_bool ret].
  destruct (raster (inpainting_canvas ui)); reflexivity.
Qed.

Lemma app_json_data_none_witness :
  app (F := Reference.framework)
    (Reference.form (Some Reference.square) Reference.unreported false)
    Reference.cpu =
  (Raise (TypeError "'NoneType' object is not subscriptable"), Reference.cpu).
Proof.
  exact (app_json_data_none (F := Reference.framework)
           (Reference.form (Some Reference.square) Reference.unreported false)
           Reference.cpu Reference.square Reference.square eq_refl eq_refl eq_refl).
Defined.

(** X14. When [app] generates and returns, the last thing it does is to
    display, and what it displays is what was saved: the images the
    pipeline returned, with a [PngInfo] whose "inpainting" entry is the text
    given to [save_images].  When [app] raises instead, nothing is
    displayed. *)
Theorem app_displays_what_was_saved {X : Externals} {F : Framework}
    (ui : Widgets) (w : World) (uploaded_file : Blob) (im : Image) (px : nat)
    (o : string) (objs l : list string) (name : string) :
  inpainting_uploaded_file ui = Some uploaded_file ->
  Image_open uploaded_file = Ret im ->
  raster (inpainting_canvas ui) = Some px ->
  objects (inpainting_canvas ui) = Some (o :: objs) ->
  inpainting_submit ui = true ->
  available_schedulers (self w) w = (Ret l, w) ->
  selectbox l 0 (inpainting_scheduler ui) = Some name ->
  let new := skipn (length (trace w)) (trace (snd (app ui w))) in
  match fst (app ui w) with
  | Ret _ =>
      exists before output_images text,
        new = (before ++
               [ SaveImages output_images "inpainting" text (output_path (self w));
                 EmptyCache; GcCollect;
                 DisplayAndDownload output_images [("inpainting", text)] ])%list /\
        saved before = [] /\
        exists p kw, pipeline_calls before = [(p, kw)] /\
                     denoise p kw = Ret output_images
  | Raise _ => forall images metadata, ~ In (DisplayAndDownload images metadata) new
  end.
Proof.
  intros Hfile Hopen Hraster Hobjs Hsubmit Hav Hsel new.
  pose proof (nth_error_known (self w) w l _ name Hav Hsel) as Hin.
  destruct (known_name _ _ Hin) as [cls Hcls]. subst new.
  rewrite (app_generates ui w uploaded_file im px o objs l name
             Hfile Hopen Hraster Hobjs Hsubmit Hav Hsel).
  cbv zeta.
  match goal with |- context [generate_image ?a ?b ?c ?d ?e ?f ?g ?h ?i ?j ?k ?w] =>
    rewrite (generate_image_run a b c d e f g h i j k cls w Hcls
               (widget_seed_accepted _))
  end.
  cbv zeta.
  match goal with |- context [denoise ?p ?k] => destruct (denoise p k) eqn:Hd end;
    cbn [fst snd trace self]; repeat rewrite <- app_assoc;
    rewrite skipn_app, skipn_all, Nat.sub_diag; cbn [skipn app].
  - eexists. eexists. eexists. split.
    + reflexivity.
    + split.
      * destruct (device_is (device (self w)) "mps"); reflexivity.
      * eexists. eexists. split; [| exact Hd].
        destruct (device_is (device (self w)) "mps"); reflexivity.
  - intros images metadata.
    destruct (device_is (device (self w)) "mps"); cbn; intuition discriminate.
Qed.

Lemma app_displays_what_was_saved_witness :
  (exists before output_images text,
     skipn (length (trace Reference.cpu))
       (trace (snd (app (F := Reference.framework)
                      (Reference.form (Some Reference.square) Reference.stroke true)
                      Reference.cpu))) =
     (before ++
      [ SaveImages output_images "inpainting" text (Some "out");
        EmptyCache; GcCollect;
        DisplayAndDownload output_images [("inpainting", text)] ])%list /\
     saved before = [] /\
     exists p kw, pipeline_calls before = [(p, kw)] /\
                  denoise (Framework := Reference.framework) p kw = Ret output_images) /\
  (forall images metadata,
     ~ In (DisplayAndDownload images metadata)
          (skipn (length (trace Reference.cpu))
             (trace (snd (app (F := Reference.framework)
                            (Reference.form (Some Reference.thumbnail)
                               Reference.stroke true)
                            Reference.cpu))))).
Proof.
  split.
  - exact (app_displays_what_was_saved (F := Reference.framework)
             (Reference.form (Some Reference.square) Reference.stroke true)
             Reference.cpu Reference.square Reference.square 1%nat "path" []
             (Euler :: "PNDMScheduler" :: "DDIMScheduler" :: "LMSDiscreteScheduler" :: nil)
             Euler eq_refl eq_refl eq_refl eq_refl eq_refl eq_refl eq_refl).
  - exact (app_displays_what_was_saved (F := Reference.framework)
             (Reference.form (Some Reference.thumbnail) Reference.stroke true)
             Reference.cpu Reference.thumbnail Reference.thumbnail 1%nat "path" []
             (Euler :: "PNDMScheduler" :: "DDIMScheduler" :: "LMSDiscreteScheduler" :: nil)
             Euler eq_refl eq_refl eq_refl eq_refl eq_refl eq_refl eq_refl).
Defined.
